(** * Cronograma de exámenes: validation, date formatting, store and export

    A shallow embedding of [app.py].  Python [str] values are sequences of
    Unicode code points, exceptions are an explicit error type, the SQLite
    table [examenes] is a list of rows in rowid order together with the
    AUTOINCREMENT high-water mark, and each Flask route is a function from
    the request and the database to a response and the new database. *)

From Stdlib Require Import List ZArith Bool Lia String Ascii DecimalString.
From Stdlib Require Import Permutation Sorted.
Import ListNotations.
Open Scope Z_scope.

(** ** Python strings *)

(** A Python [str] is a sequence of code points. *)
Definition pystr := list Z.

Fixpoint bytes_of_string (s : string) : list Z :=
  match s with
  | EmptyString => []
  | String c s' => Z.of_N (N_of_ascii c) :: bytes_of_string s'
  end.

(** The source file is UTF-8: a literal is read by decoding its bytes.
    [need] counts the continuation bytes still expected. *)
Fixpoint utf8_decode (need : nat) (acc : Z) (bs : list Z) : pystr :=
  match bs with
  | [] => []
  | b :: bs' =>
      match need with
      | O =>
          if b <? 128 then b :: utf8_decode 0 0 bs'
          else if b <? 224 then utf8_decode 1 (b - 192) bs'
          else if b <? 240 then utf8_decode 2 (b - 224) bs'
          else utf8_decode 3 (b - 240) bs'
      | S O => (acc * 64 + (b - 128)) :: utf8_decode 0 0 bs'
      | S n => utf8_decode n (acc * 64 + (b - 128)) bs'
      end
  end.

(** [py "..."] is the Python string written as that literal. *)
Definition py (s : string) : pystr := utf8_decode 0 0 (bytes_of_string s).

Fixpoint pystr_eqb (a b : pystr) : bool :=
  match a, b with
  | [], [] => true
  | x :: a', y :: b' => (x =? y) && pystr_eqb a' b'
  | _, _ => false
  end.

(** [x in xs] for a list of strings. *)
Definition py_in (x : pystr) (xs : list pystr) : bool := existsb (pystr_eqb x) xs.

(** [str.isspace] on one code point (the Unicode whitespace of CPython). *)
Definition is_space (c : Z) : bool :=
  ((9 <=? c) && (c <=? 13)) || ((28 <=? c) && (c <=? 32))
  || (c =? 133) || (c =? 160) || (c =? 5760)
  || ((8192 <=? c) && (c <=? 8202))
  || (c =? 8232) || (c =? 8233) || (c =? 8239) || (c =? 8287) || (c =? 12288).

Fixpoint lstrip (s : pystr) : pystr :=
  match s with
  | c :: s' => if is_space c then lstrip s' else s
  | [] => []
  end.

Definition rstrip (s : pystr) : pystr := rev (lstrip (rev s)).

(** [s.strip()] *)
Definition strip (s : pystr) : pystr := rstrip (lstrip s).

(** Truth value of a string: [not s] is [true] on the empty string only. *)
Definition py_not (s : pystr) : bool :=
  match s with [] => true | _ => false end.

(** The code points of general category Nd come in runs of ten that start at
    a digit zero (Unicode 14, as shipped with CPython 3.11). *)
Definition decimal_zeros : list Z :=
  [48; 1632; 1776; 1984; 2406; 2534; 2662; 2790; 2918; 3046; 3174; 3302;
   3430; 3558; 3664; 3792; 3872; 4160; 4240; 6112; 6160; 6470; 6608; 6784;
   6800; 6992; 7088; 7232; 7248; 42528; 43216; 43264; 43472; 43504; 43600;
   44016; 65296; 66720; 68912; 69734; 69872; 69942; 70096; 70384; 70736;
   70864; 71248; 71360; 71472; 71904; 72016; 72784; 73040; 73120; 92768;
   92864; 93008; 120782; 120792; 120802; 120812; 120822; 123200; 123632;
   125264; 130032].

(** [unicodedata.decimal]: the value of a decimal digit, if it is one. *)
Definition unicode_decimal (c : Z) : option Z :=
  match find (fun z => (z <=? c) && (c <? z + 10)) decimal_zeros with
  | Some z => Some (c - z)
  | None => None
  end.

(** ** Exceptions *)

Inductive exn := ValueError | TypeError | IndexError | OverflowError.

Inductive result (A : Type) : Type :=
| Ok (a : A)
| Raise (e : exn).
Arguments Ok {A} a.
Arguments Raise {A} e.

Definition bind {A B} (m : result A) (k : A -> result B) : result B :=
  match m with
  | Ok a => k a
  | Raise e => Raise e
  end.

Notation "x <- m ;; k" := (bind m (fun x => k))
  (at level 61, m at next level, right associativity).

Definition exn_eqb (a b : exn) : bool :=
  match a, b with
  | ValueError, ValueError | TypeError, TypeError | IndexError, IndexError
  | OverflowError, OverflowError => true
  | _, _ => false
  end.

(** [try: body  except (e1, e2, ...): handler] *)
Definition try_except {A} (body : result A) (caught : list exn)
    (handler : result A) : result A :=
  match body with
  | Ok a => Ok a
  | Raise e => if existsb (exn_eqb e) caught then handler else Raise e
  end.

(** [xs[i]] for a Python list, negative indices included. *)
Definition getitem {A} (xs : list A) (i : Z) : result A :=
  let n := Z.of_nat (List.length xs) in
  let j := if i <? 0 then i + n else i in
  if (0 <=? j) && (j <? n) then
    match nth_error xs (Z.to_nat j) with
    | Some x => Ok x
    | None => Raise IndexError
    end
  else Raise IndexError.

(** [int(s)] on a string: surrounding whitespace is dropped and every
    Unicode decimal digit counts. *)
Fixpoint int_digits (acc : Z) (s : pystr) : result Z :=
  match s with
  | [] => Ok acc
  | c :: s' =>
      match unicode_decimal c with
      | Some v => int_digits (acc * 10 + v) s'
      | None => Raise ValueError
      end
  end.

Definition py_int (s : pystr) : result Z :=
  match strip s with
  | [] => Raise ValueError
  | t => int_digits 0 t
  end.

(** ** The [datetime] module, as far as the application uses it *)

Module datetime.

Definition MINYEAR : Z := 1.
Definition MAXYEAR : Z := 9999.

Definition _DAYS_IN_MONTH : list Z :=
  [-1; 31; 28; 31; 30; 31; 30; 31; 31; 30; 31; 30; 31].

Definition _DAYS_BEFORE_MONTH : list Z :=
  [-1; 0; 31; 59; 90; 120; 151; 181; 212; 243; 273; 304; 334].

Definition _is_leap (year : Z) : bool :=
  (year mod 4 =? 0) && (negb (year mod 100 =? 0) || (year mod 400 =? 0)).

Definition _days_before_year (year : Z) : Z :=
  let y := year - 1 in
  y * 365 + y / 4 - y / 100 + y / 400.

Definition _days_in_month (year month : Z) : Z :=
  if (month =? 2) && _is_leap year then 29
  else nth (Z.to_nat month) _DAYS_IN_MONTH 0.

Definition _days_before_month (year month : Z) : Z :=
  nth (Z.to_nat month) _DAYS_BEFORE_MONTH 0
  + (if (month >? 2) && _is_leap year then 1 else 0).

Definition _ymd2ord (year month day : Z) : Z :=
  _days_before_year year + _days_before_month year month + day.

(** A [datetime] at midnight: the application never sets a time. *)
Record t := mk { year : Z; month : Z; day : Z }.

(** [_check_date_fields] followed by the construction of the object. *)
Definition new (y m d : Z) : result t :=
  if negb ((MINYEAR <=? y) && (y <=? MAXYEAR)) then Raise ValueError
  else if negb ((1 <=? m) && (m <=? 12)) then Raise ValueError
  else if negb ((1 <=? d) && (d <=? _days_in_month y m)) then Raise ValueError
  else Ok (mk y m d).

Definition toordinal (dt : t) : Z := _ymd2ord (year dt) (month dt) (day dt).

(** Monday is 0, Sunday is 6. *)
Definition weekday (dt : t) : Z := (toordinal dt + 6) mod 7.

(** The last [width] decimal digits of [n], most significant first. *)
Fixpoint zero_padded (width : nat) (n : Z) : pystr :=
  match width with
  | O => []
  | S w => zero_padded w (n / 10) ++ [48 + n mod 10]
  end.

(** [%Y] as the C library's [strftime] writes it under CPython 3.11: the
    year in decimal with no padding, so 999 gives [999] and 1 gives [1];
    years go up to 9999. *)
Definition strftime_Y (y : Z) : pystr :=
  if y <? 10 then zero_padded 1 y
  else if y <? 100 then zero_padded 2 y
  else if y <? 1000 then zero_padded 3 y
  else zero_padded 4 y.

(** [dt.strftime('%d/%m/%Y')]: two digits, two digits, the year unpadded. *)
Definition strftime_dmY (dt : t) : pystr :=
  zero_padded 2 (day dt) ++ [47] ++ zero_padded 2 (month dt) ++ [47]
  ++ strftime_Y (year dt).

End datetime.

(** ** [_strptime]: the regular expression of a format and its matcher *)

(** One position of a pattern: a literal, an ASCII range [[lo-hi]] or [\d]. *)
Inductive cls :=
| Lit (c : Z)
| Range (lo hi : Z)
| Digit.

Definition cls_match (k : cls) (c : Z) : bool :=
  match k with
  | Lit x => c =? x
  | Range lo hi => (lo <=? c) && (c <=? hi)
  | Digit => match unicode_decimal c with Some _ => true | None => false end
  end.

(** A named group is an ordered choice of class sequences; between groups
    the format has literal characters. *)
Inductive item :=
| Group (alts : list (list cls))
| Char (k : cls).

(** Matches one alternative at the head of [s]: the text matched and the rest. *)
Fixpoint match_seq (ks : list cls) (s : pystr) : option (pystr * pystr) :=
  match ks with
  | [] => Some ([], s)
  | k :: ks' =>
      match s with
      | c :: s' =>
          if cls_match k c then
            match match_seq ks' s' with
            | Some (g, r) => Some (c :: g, r)
            | None => None
            end
          else None
      | [] => None
      end
  end.

(** [regex.match]: anchored at the start only; alternatives are tried in
    order and the next one is tried when the rest of the pattern fails. *)
Fixpoint re_match (p : list item) (s : pystr) : option (list pystr * pystr) :=
  match p with
  | [] => Some ([], s)
  | Char k :: p' =>
      match s with
      | c :: s' => if cls_match k c then re_match p' s' else None
      | [] => None
      end
  | Group alts :: p' =>
      (fix try (alts : list (list cls)) : option (list pystr * pystr) :=
         match alts with
         | [] => None
         | a :: alts' =>
             match match_seq a s with
             | Some (g, r) =>
                 match re_match p' r with
                 | Some (gs, r') => Some (g :: gs, r')
                 | None => try alts'
                 end
             | None => try alts'
             end
         end) alts
  end.

(** ['Y': (?P<Y>\d\d\d\d)] *)
Definition re_Y : item := Group [[Digit; Digit; Digit; Digit]].

(** ['m': (?P<m>1[0-2]|0[1-9]|[1-9])] *)
Definition re_m : item :=
  Group [[Lit 49; Range 48 50]; [Lit 48; Range 49 57]; [Range 49 57]].

(** ['d': (?P<d>3[0-1]|[1-2]\d|0[1-9]|[1-9]| [1-9])] *)
Definition re_d : item :=
  Group [[Lit 51; Range 48 49]; [Range 49 50; Digit]; [Lit 48; Range 49 57];
         [Range 49 57]; [Lit 32; Range 49 57]].

(** The compiled form of ['%Y-%m-%d'].  The pattern is compiled with
    IGNORECASE, which changes nothing for digits, the hyphen and the space. *)
Definition format_regex : list item := [re_Y; Char (Lit 45); re_m; Char (Lit 45); re_d].

(** [datetime.datetime.strptime(data_string, '%Y-%m-%d')] *)
Definition strptime (data_string : pystr) : result datetime.t :=
  match re_match format_regex data_string with
  | None => Raise ValueError                     (* does not match format *)
  | Some (found, rest) =>
      match rest with
      | _ :: _ => Raise ValueError               (* unconverted data remains *)
      | [] =>
          match found with
          | [gY; gm; gd] =>
              year <- py_int gY ;;
              month <- py_int gm ;;
              day <- py_int gd ;;
              datetime.new year month day
          | _ => Raise ValueError
          end
      end
  end.

(** A string parses as a date when [strptime] returns one. *)
Definition parses (s : pystr) : Prop := exists dt, strptime s = Ok dt.

(** The day after a date of the calendar. *)
Definition next_day (y m d : Z) : Z * Z * Z :=
  if d <? datetime._days_in_month y m then (y, m, d + 1)
  else if m <? 12 then (y, m + 1, 1)
  else (y + 1, 1, 1).

(** ** The application: reference data *)

Definition ESPACIOS_CURRICULARES : list pystr :=
  [ py "Lengua";
    py "Matemática";
    py "Lengua Extranjera";
    py "Educación Física";
    py "Ciencias Sociales: Geografía";
    py "Ciencias Sociales: Historia-Formación Ética y Ciudadana";
    py "Ciencias Naturales";
    py "Educación Artística (C) Artes Visuales";
    py "Educación Artística (A) Teatro";
    py "Educación Artística (B) Música";
    py "Comunicación Social";
    py "Educación Tecnológica";
    py "Lengua y Literatura";
    py "Geografía";
    py "Historia";
    py "Física";
    py "Biología";
    py "Prácticas Artísticas";
    py "Comunicación";
    py "Sistemas de Información Contable I (PP 1)";
    py "Tecnologías de la Información y la Comunicación";
    py "Procesamiento Digital";
    py "Proyecto Integrado: Ciencias Sociales";
    py "Química";
    py "Sistemas de Información Contable II";
    py "Administración de las Organizaciones";
    py "Economía I";
    py "Derecho";
    py "Tecnología, Sociedad y Conocimiento";
    py "Producción Multimedial";
    py "Funcionamiento de Sistemas Digitales";
    py "Resoluciones Lógicas";
    py "Economía Social";
    py "Formación Ética y Ciudadana";
    py "Formación para la Vida y el Trabajo";
    py "Proyecto y Gestión de Microemprendimientos";
    py "Sistemas de Información Contable III";
    py "Teoría y Práctica Impositiva";
    py "Economía II";
    py "Arquitectura de Hardware";
    py "Sistemas digitales y redes";
    py "Programación";
    py "Desarrollo de Sistemas Digitales" ].

Definition anios_permitidos : list pystr :=
  [py "1° año"; py "2° año"; py "3° año"; py "4° año"; py "5° año"].

Definition dias_semana : list pystr :=
  [py "LUNES"; py "MARTES"; py "MIÉRCOLES"; py "JUEVES";
   py "VIERNES"; py "SÁBADO"; py "DOMINGO"].

Definition dias_semana_abrev : list pystr :=
  [py "LUN"; py "MAR"; py "MIE"; py "JUE"; py "VIE"; py "SAB"; py "DOM"].

(** ** The application: formatting and validation *)

Definition formatear_fecha (fecha_str : pystr) : result pystr :=
  try_except
    (fecha <- strptime fecha_str ;;
     dia_semana <- getitem dias_semana (datetime.weekday fecha) ;;
     let fecha_formateada := datetime.strftime_dmY fecha in
     Ok (dia_semana ++ py " " ++ fecha_formateada))
    [ValueError; TypeError]
    (Ok fecha_str).

Definition formatear_fecha_compacta (fecha_str : pystr) : result pystr :=
  try_except
    (fecha <- strptime fecha_str ;;
     dia_semana <- getitem dias_semana_abrev (datetime.weekday fecha) ;;
     let fecha_formateada := datetime.strftime_dmY fecha in
     Ok (dia_semana ++ py " " ++ fecha_formateada))
    [ValueError; TypeError]
    (Ok fecha_str).

Definition validar_datos_examen
    (fecha espacio_curricular anio horario docente : pystr)
    : result (bool * pystr) :=
  match strptime fecha with
  | Raise ValueError => Ok (false, py "Fecha inválida")
  | Raise e => Raise e
  | Ok _ =>
      if negb (py_in espacio_curricular ESPACIOS_CURRICULARES) then
        Ok (false, py "Espacio curricular no válido")
      else if negb (py_in anio anios_permitidos) then
        Ok (false, py "Año no válido")
      else if py_not (strip horario) then
        Ok (false, py "Horario no puede estar vacío")
      else if py_not (strip docente) then
        Ok (false, py "Docente no puede estar vacío")
      else Ok (true, py "")
  end.

(** ** The table [examenes] *)

(** One row: the columns of [CREATE TABLE examenes], in their order. *)
Record examen := mk_examen {
  id : Z;
  fecha : pystr;
  espacio_curricular : pystr;
  anio : pystr;
  horario : pystr;
  docente : pystr
}.

(** The database once [init_db] has run: the rows in rowid order (the order
    of a table scan) and the [sqlite_sequence] entry that AUTOINCREMENT
    keeps, the largest rowid ever assigned.  Failures of the engine itself
    (I/O, a full database) are outside the model. *)
Record database := mk_database {
  examenes : list examen;
  sqlite_sequence : Z
}.

(** A database file on which [init_db] has just created the table. *)
Definition empty_db : database := mk_database [] 0.

(** Comparison of TEXT values under the BINARY collation: [memcmp] on the
    UTF-8 encodings, which orders strings as their code points do. *)
Fixpoint pystr_compare (a b : pystr) : comparison :=
  match a, b with
  | [], [] => Eq
  | [], _ :: _ => Lt
  | _ :: _, [] => Gt
  | x :: a', y :: b' =>
      match x ?= y with
      | Eq => pystr_compare a' b'
      | c => c
      end
  end.

Definition fecha_leb (x y : examen) : bool :=
  match pystr_compare (fecha x) (fecha y) with
  | Gt => false
  | _ => true
  end.

(** [ORDER BY fecha] over a table scan: SQLite sorts on the key column alone
    and, of two rows with equal keys, emits the one scanned first. *)
Fixpoint insert_row (x : examen) (l : list examen) : list examen :=
  match l with
  | [] => [x]
  | y :: l' => if fecha_leb x y then x :: l else y :: insert_row x l'
  end.

Definition order_by_fecha (l : list examen) : list examen :=
  fold_right insert_row [] l.

Definition max_rowid (l : list examen) : Z :=
  fold_right (fun r m => Z.max (id r) m) 0 l.

(** [INSERT INTO examenes (fecha, ...) VALUES (?, ?, ?, ?, ?)]: the new rowid
    is one more than the largest ever used. *)
Definition sql_insert (f e a h d : pystr) (db : database) : database :=
  let i := Z.max (sqlite_sequence db) (max_rowid (examenes db)) + 1 in
  mk_database (examenes db ++ [mk_examen i f e a h d]) i.

(** [SELECT * FROM examenes ORDER BY fecha], then [fetchall()] *)
Definition sql_select_all (db : database) : list examen :=
  order_by_fecha (examenes db).

(** [SELECT fecha, espacio_curricular, anio, horario, docente FROM examenes
    ORDER BY fecha], then [fetchall()] *)
Definition sql_select_campos (db : database) : list (list pystr) :=
  map (fun r => [fecha r; espacio_curricular r; anio r; horario r; docente r])
      (order_by_fecha (examenes db)).

(** [SELECT * FROM examenes WHERE id=?], then [fetchone()] *)
Definition sql_select_by_id (i : Z) (db : database) : option examen :=
  find (fun r => id r =? i) (examenes db).

(** [UPDATE examenes SET fecha=?, ... WHERE id=?] *)
Definition sql_update (i : Z) (f e a h d : pystr) (db : database) : database :=
  mk_database
    (map (fun r => if id r =? i then mk_examen (id r) f e a h d else r)
         (examenes db))
    (sqlite_sequence db).

(** [DELETE FROM examenes WHERE id=?] *)
Definition sql_delete (i : Z) (db : database) : database :=
  mk_database (filter (fun r => negb (id r =? i)) (examenes db))
              (sqlite_sequence db).

(** Binding a Python [int] to a [?] of a statement: [sqlite3] passes it as a
    signed 64-bit integer and raises [OverflowError] (Python int too large
    to convert to SQLite INTEGER) when it does not fit; the statement is
    then not run. *)
Definition sqlite_bind_int (i : Z) : result Z :=
  if (- 2 ^ 63 <=? i) && (i <? 2 ^ 63) then Ok i else Raise OverflowError.

(** ** [csv.writer] with the default dialect *)

Definition csv_special (c : Z) : bool :=
  (c =? 44) || (c =? 34) || (c =? 13) || (c =? 10).

(** A field under QUOTE_MINIMAL: quoted when it holds the delimiter, the
    quote character or a character of the line terminator; quotes doubled. *)
Definition csv_field (s : pystr) : pystr :=
  if existsb csv_special s then
    [34] ++ flat_map (fun c => if c =? 34 then [34; 34] else [c]) s ++ [34]
  else s.

Fixpoint csv_join (fields : list pystr) : pystr :=
  match fields with
  | [] => []
  | [f] => f
  | f :: fs => f ++ [44] ++ csv_join fs
  end.

(** [writer.writerow(fields)]: a record that would be empty although it has
    a field is written as a quoted empty field. *)
Definition csv_writerow (fields : list pystr) : pystr :=
  let rec := csv_join (map csv_field fields) in
  (match fields, rec with
   | _ :: _, [] => [34; 34]
   | _, _ => rec
   end) ++ [13; 10].

(** ** Requests and responses *)

Inductive method := GET | POST.

(** [request.form]: [get] gives [None] for a field that was not sent. *)
Record form := mk_form {
  form_fecha : option pystr;
  form_espacio_curricular : option pystr;
  form_anio : option pystr;
  form_horario : option pystr;
  form_docente : option pystr
}.

(** What the rich renderer is handed: the title, the table and its column
    widths, and the footer. *)
Record pdf := mk_pdf {
  pdf_titulo : pystr;
  pdf_data : list (list pystr);
  pdf_colWidths : list Z;
  pdf_pie_pagina : pystr
}.

Inductive response :=
| render_index (examenes : list examen)
| render_agregar (espacios_curriculares : list pystr)
| render_editar (examen : examen) (espacios_curriculares : list pystr)
| render_error (mensaje : pystr) (status : Z)
| redirect_index
| send_pdf (doc : pdf) (download_name : pystr)
| send_csv (contents : pystr) (download_name : pystr) (mimetype : pystr).

(** Truth value of [request.form.get(...)]: [None] and [''] are false. *)
Definition truthy (v : option pystr) : bool :=
  match v with
  | Some (_ :: _) => true
  | _ => false
  end.

Fixpoint mapM {A B} (f : A -> result B) (l : list A) : result (list B) :=
  match l with
  | [] => Ok []
  | x :: l' => y <- f x ;; ys <- mapM f l' ;; Ok (y :: ys)
  end.

(** ** The routes *)

(** [GET /] *)
Definition index (db : database) : result (response * database) :=
  let examenes := sql_select_all db in
  examenes_formateados <-
    mapM (fun examen =>
            let fecha_original := fecha examen in
            fecha_formateada <- formatear_fecha fecha_original ;;
            Ok (mk_examen (id examen) fecha_formateada
                          (espacio_curricular examen) (anio examen)
                          (horario examen) (docente examen)))
         examenes ;;
  Ok (render_index examenes_formateados, db).

Definition faltan_datos : response :=
  render_error (py "Faltan datos. Por favor complete todos los campos.") 400.

Definition datos_invalidos (mensaje_error : pystr) : response :=
  render_error (py "Datos inválidos: " ++ mensaje_error) 400.

(** [/agregar] *)
Definition agregar (m : method) (fm : form) (db : database)
    : result (response * database) :=
  match m with
  | POST =>
      match form_fecha fm, form_espacio_curricular fm, form_anio fm,
            form_horario fm, form_docente fm with
      | Some fecha, Some espacio_curricular, Some anio, Some horario,
        Some docente =>
          if negb (truthy (form_fecha fm) && truthy (form_espacio_curricular fm)
                   && truthy (form_anio fm) && truthy (form_horario fm)
                   && truthy (form_docente fm))
          then Ok (faltan_datos, db)
          else
            v <- validar_datos_examen fecha espacio_curricular anio horario docente ;;
            let '(es_valido, mensaje_error) := v in
            if negb es_valido then Ok (datos_invalidos mensaje_error, db)
            else
              Ok (redirect_index,
                  sql_insert fecha espacio_curricular anio horario docente db)
      | _, _, _, _, _ => Ok (faltan_datos, db)
      end
  | GET => Ok (render_agregar ESPACIOS_CURRICULARES, db)
  end.

(** [/editar/<int:id>].  The converter [<int:id>] of the URL rule matches a
    non-empty run of decimal digits of any length, so the view is called
    with any [id >= 0]. *)
Definition editar (i : Z) (m : method) (fm : form) (db : database)
    : result (response * database) :=
  match m with
  | POST =>
      match form_fecha fm, form_espacio_curricular fm, form_anio fm,
            form_horario fm, form_docente fm with
      | Some fecha, Some espacio_curricular, Some anio, Some horario,
        Some docente =>
          if negb (truthy (form_fecha fm) && truthy (form_espacio_curricular fm)
                   && truthy (form_anio fm) && truthy (form_horario fm)
                   && truthy (form_docente fm))
          then Ok (faltan_datos, db)
          else
            v <- validar_datos_examen fecha espacio_curricular anio horario docente ;;
            let '(es_valido, mensaje_error) := v in
            if negb es_valido then Ok (datos_invalidos mensaje_error, db)
            else
              id_param <- sqlite_bind_int i ;;
              Ok (redirect_index,
                  sql_update id_param fecha espacio_curricular anio horario
                    docente db)
      | _, _, _, _, _ => Ok (faltan_datos, db)
      end
  | GET =>
      id_param <- sqlite_bind_int i ;;
      match sql_select_by_id id_param db with
      | None => Ok (render_error (py "Examen no encontrado") 404, db)
      | Some examen => Ok (render_editar examen ESPACIOS_CURRICULARES, db)
      end
  end.

(** [/eliminar/<int:id>] *)
Definition eliminar (i : Z) (db : database) : result (response * database) :=
  id_param <- sqlite_bind_int i ;;
  Ok (redirect_index, sql_delete id_param db).

Definition csv_header : list pystr :=
  [py "Fecha"; py "Espacio Curricular"; py "Año"; py "Horario"; py "Docente"].

(** [str(n)] for a count. *)
Definition py_str_nat (n : nat) : pystr :=
  py (NilZero.string_of_uint (Nat.to_uint n)).

(** [/exportar_pdf].  [REPORTLAB_AVAILABLE] is fixed when the module is
    loaded; [fecha_exportacion] is the clock reading
    [datetime.now().strftime("%d/%m/%Y %H:%M")].  A row whose first item is
    missing would make [ex_lista[0]] raise. *)
Definition exportar_pdf (REPORTLAB_AVAILABLE : bool) (fecha_exportacion : pystr)
    (db : database) : result (response * database) :=
  let examenes := sql_select_campos db in
  examenes_formateados <-
    mapM (fun ex_lista =>
            match ex_lista with
            | f :: rest => f' <- formatear_fecha_compacta f ;; Ok (f' :: rest)
            | [] => Raise IndexError
            end)
         examenes ;;
  if REPORTLAB_AVAILABLE then
    let data := csv_header :: examenes_formateados in
    let pie_pagina :=
      py "<i>Exportado el " ++ fecha_exportacion
      ++ py " - Total de exámenes: "
      ++ py_str_nat (List.length examenes_formateados) ++ py "</i>" in
    Ok (send_pdf (mk_pdf (py "Cronograma de Exámenes") data
                         [90; 150; 50; 70; 90] pie_pagina)
                 (py "cronograma_examenes.pdf"), db)
  else
    Ok (send_csv (List.concat (map csv_writerow (csv_header :: examenes_formateados)))
                 (py "cronograma_examenes.csv") (py "text/csv"), db).

(** ** Histories of requests *)

Inductive request :=
| req_index
| req_agregar (m : method) (fm : form)
| req_editar (i : Z) (m : method) (fm : form)
| req_eliminar (i : Z)
| req_exportar_pdf (fecha_exportacion : pystr).

Definition handle (REPORTLAB_AVAILABLE : bool) (rq : request) (db : database)
    : result (response * database) :=
  match rq with
  | req_index => index db
  | req_agregar m fm => agregar m fm db
  | req_editar i m fm => editar i m fm db
  | req_eliminar i => eliminar i db
  | req_exportar_pdf t => exportar_pdf REPORTLAB_AVAILABLE t db
  end.

(** The database after a request; a request that raises commits nothing. *)
Definition serve (REPORTLAB_AVAILABLE : bool) (db : database) (rq : request)
    : database :=
  match handle REPORTLAB_AVAILABLE rq db with
  | Ok (_, db') => db'
  | Raise _ => db
  end.

Definition serve_all (REPORTLAB_AVAILABLE : bool) (rqs : list request)
    (db : database) : database :=
  fold_left (serve REPORTLAB_AVAILABLE) rqs db.

(** A form in which all five fields were sent. *)
Definition form_of (f e a h d : pystr) : form :=
  mk_form (Some f) (Some e) (Some a) (Some h) (Some d).

(** ** Notions used to state the properties *)

Definition fecha_le (x y : examen) : Prop :=
  pystr_compare (fecha x) (fecha y) <> Gt.

(** The rows of a listing that carry the date [k]. *)
Definition con_fecha (k : pystr) (l : list examen) : list examen :=
  filter (fun r => pystr_eqb (fecha r) k) l.

(** The integers that fit a [?] of a statement and a rowid: signed 64-bit. *)
Definition sqlite_integer (i : Z) : Prop := - 2 ^ 63 <= i < 2 ^ 63.

(** Rowids grow along the table and never pass the AUTOINCREMENT mark. *)
Definition wf_db (db : database) : Prop :=
  StronglySorted Z.lt (map id (examenes db))
  /\ Forall (fun r => id r <= sqlite_sequence db) (examenes db).

(** The columns of the export query, in its order. *)
Definition campos (r : examen) : list pystr :=
  [fecha r; espacio_curricular r; anio r; horario r; docente r].

(** The lines of a text whose lines end in CR LF. *)
Fixpoint lines_crlf (cur : pystr) (s : pystr) : list pystr :=
  match s with
  | [] => match cur with [] => [] | _ => [rev cur] end
  | c :: s' =>
      match s' with
      | c' :: s'' =>
          if (c =? 13) && (c' =? 10) then rev cur :: lines_crlf [] s''
          else lines_crlf (c :: cur) s'
      | [] => lines_crlf (c :: cur) s'
      end
  end.

(** The ISO text of a date: YYYY-MM-DD in zero-padded ASCII digits. *)
Definition isoformat (y m d : Z) : pystr :=
  datetime.zero_padded 4 y ++ [45] ++ datetime.zero_padded 2 m ++ [45]
  ++ datetime.zero_padded 2 d.

(** A date of the calendar that [datetime] can hold. *)
Definition valid_date (y m d : Z) : Prop :=
  1 <= y <= 9999 /\ 1 <= m <= 12 /\ 1 <= d <= datetime._days_in_month y m.

(** The part of the pattern after the year, run on the text of one month
    and one day: the two groups must be exactly the two numbers. *)
Definition month_day_groups (m d : Z) : bool :=
  match re_match [Char (Lit 45); re_m; Char (Lit 45); re_d]
          ([45] ++ datetime.zero_padded 2 m ++ [45] ++ datetime.zero_padded 2 d) with
  | Some ([gm; gd], []) =>
      pystr_eqb gm (datetime.zero_padded 2 m)
      && pystr_eqb gd (datetime.zero_padded 2 d)
  | _ => false
  end.

Definition all_month_day_groups : bool :=
  forallb (fun m => forallb (month_day_groups (Z.of_nat m)) (map Z.of_nat (seq 1 31)))
          (seq 1 12).

(** ** Notions used to state the further properties *)

(** The test [fecha and espacio_curricular and anio and horario and docente]
    of the two forms: every field was sent and none is empty. *)
Definition form_completo (fm : form) : bool :=
  truthy (form_fecha fm) && truthy (form_espacio_curricular fm)
  && truthy (form_anio fm) && truthy (form_horario fm)
  && truthy (form_docente fm).

(** The text of a field that was sent. *)
Definition campo (v : option pystr) : pystr :=
  match v with
  | Some s => s
  | None => []
  end.

(** The verdict of the validator on the fields of a form. *)
Definition validar_form (fm : form) : result (bool * pystr) :=
  validar_datos_examen (campo (form_fecha fm))
    (campo (form_espacio_curricular fm)) (campo (form_anio fm))
    (campo (form_horario fm)) (campo (form_docente fm)).

(** A row that the validator accepts. *)
Definition examen_valido (r : examen) : Prop :=
  validar_datos_examen (fecha r) (espacio_curricular r) (anio r) (horario r)
    (docente r) = Ok (true, py "").

(** The requests that only read. *)
Definition solo_lectura (rq : request) : bool :=
  match rq with
  | req_index => true
  | req_agregar GET _ => true
  | req_editar _ GET _ => true
  | req_exportar_pdf _ => true
  | _ => false
  end.

(** A reading of the default dialect, used to state that the fallback file
    loses nothing: fields are separated by commas, a field that opens with a
    double quote runs to the closing one with doubled quotes standing for
    one, and a record ends at CR LF outside quotes.  [campos] holds the
    fields of the current record, last first; [cur] the characters of the
    current field, last first. *)
Inductive csv_mode :=
| csv_start
| csv_bare
| csv_quoted
| csv_after_quote
| csv_after_cr.

Fixpoint csv_reader (mode : csv_mode) (campos : list pystr) (cur : pystr)
    (s : pystr) : list (list pystr) :=
  match s with
  | [] => []
  | c :: s' =>
      match mode with
      | csv_start =>
          if c =? 34 then csv_reader csv_quoted campos [] s'
          else if c =? 44 then csv_reader csv_start ([] :: campos) [] s'
          else if c =? 13 then
            csv_reader csv_after_cr
              (match campos with [] => [] | _ => [] :: campos end) [] s'
          else csv_reader csv_bare campos [c] s'
      | csv_bare =>
          if c =? 44 then csv_reader csv_start (rev cur :: campos) [] s'
          else if c =? 13 then csv_reader csv_after_cr (rev cur :: campos) [] s'
          else csv_reader csv_bare campos (c :: cur) s'
      | csv_quoted =>
          if c =? 34 then csv_reader csv_after_quote campos cur s'
          else csv_reader csv_quoted campos (c :: cur) s'
      | csv_after_quote =>
          if c =? 34 then csv_reader csv_quoted campos (34 :: cur) s'
          else if c =? 44 then csv_reader csv_start (rev cur :: campos) [] s'
          else csv_reader csv_after_cr (rev cur :: campos) [] s'
      | csv_after_cr => rev campos :: csv_reader csv_start [] [] s'
      end
  end.

(** * Properties *)

(** ** Strings *)

Lemma pystr_eqb_eq (a b : pystr) : pystr_eqb a b = true <-> a = b.
Proof.
  revert b; induction a as [|x a IH]; intros [|y b]; simpl;
    try (split; [discriminate | discriminate]); try tauto.
  rewrite andb_true_iff, Z.eqb_eq, IH.
  split; [intros [-> ->]; reflexivity | intros [= -> ->]; auto].
Qed.

Lemma py_in_In (x : pystr) (xs : list pystr) : py_in x xs = true <-> In x xs.
Proof.
  unfold py_in. rewrite existsb_exists. split.
  - intros (y & Hy & E). apply pystr_eqb_eq in E. subst; assumption.
  - intros H. exists x. split; [assumption | apply pystr_eqb_eq; reflexivity].
Qed.

Lemma lstrip_nil (s : pystr) : lstrip s = [] <-> forallb is_space s = true.
Proof.
  induction s as [|c s IH]; simpl; [tauto|].
  destruct (is_space c); simpl; [assumption | split; discriminate].
Qed.

(** Trimming leaves nothing exactly when every character is whitespace. *)
Lemma strip_nil (s : pystr) : strip s = [] <-> forallb is_space s = true.
Proof.
  unfold strip, rstrip. split.
  - intros H. apply lstrip_nil.
    assert (E : lstrip (rev (lstrip s)) = []).
    { rewrite <- (rev_involutive (lstrip (rev (lstrip s)))), H. reflexivity. }
    apply lstrip_nil in E.
    destruct (lstrip s) as [|c t] eqn:L; [reflexivity|].
    assert (Hc : is_space c = false).
    { destruct s as [|c0 s0]; simpl in L; [discriminate|].
      clear E. revert c0 L. induction s0 as [|c1 s1 IH]; intros c0 L; simpl in L.
      - destruct (is_space c0) eqn:S0; [discriminate | congruence].
      - destruct (is_space c0) eqn:S0; [apply (IH c1); exact L | congruence]. }
    rewrite forallb_forall in E.
    rewrite (E c) in Hc; [discriminate|].
    apply -> in_rev. left; reflexivity.
  - intros H. apply lstrip_nil in H. rewrite H. reflexivity.
Qed.

(** ** Exceptions raised by the parser *)

Lemma int_digits_raises (s : pystr) : forall acc e,
  int_digits acc s = Raise e -> e = ValueError.
Proof.
  induction s as [|c s IH]; simpl; intros acc e H; [discriminate|].
  destruct (unicode_decimal c); [eauto | congruence].
Qed.

Lemma py_int_raises (s : pystr) (e : exn) : py_int s = Raise e -> e = ValueError.
Proof.
  unfold py_int. destruct (strip s); [congruence | apply int_digits_raises].
Qed.

Lemma new_raises (y m d : Z) (e : exn) :
  datetime.new y m d = Raise e -> e = ValueError.
Proof.
  unfold datetime.new.
  repeat match goal with |- context [if ?b then _ else _] => destruct b end;
    congruence.
Qed.

(** A string that is not a date makes [strptime] raise [ValueError], and
    nothing else. *)
Lemma strptime_raises (s : pystr) (e : exn) :
  strptime s = Raise e -> e = ValueError.
Proof.
  unfold strptime.
  destruct (re_match format_regex s) as [[gs r]|]; [|congruence].
  destruct r; [|congruence].
  destruct gs as [|gY [|gm [|gd [|? ?]]]]; try congruence.
  unfold bind.
  destruct (py_int gY) eqn:EY; [|intros [= <-]; eapply py_int_raises; eassumption].
  destruct (py_int gm) eqn:Em; [|intros [= <-]; eapply py_int_raises; eassumption].
  destruct (py_int gd) eqn:Ed; [|intros [= <-]; eapply py_int_raises; eassumption].
  apply new_raises.
Qed.

Lemma strptime_cases (s : pystr) :
  (exists dt, strptime s = Ok dt) \/ strptime s = Raise ValueError.
Proof.
  destruct (strptime s) as [dt|e] eqn:E; [left; eauto | right].
  apply strptime_raises in E. congruence.
Qed.

(** ** Calendar *)

Lemma weekday_range (dt : datetime.t) : 0 <= datetime.weekday dt < 7.
Proof. unfold datetime.weekday. apply Z.mod_pos_bound. lia. Qed.

Lemma getitem_nth_error {A} (xs : list A) (i : Z) :
  0 <= i < Z.of_nat (List.length xs) ->
  exists x, nth_error xs (Z.to_nat i) = Some x /\ getitem xs i = Ok x.
Proof.
  intros H. unfold getitem.
  replace (i <? 0) with false by (symmetry; apply Z.ltb_ge; lia).
  replace (0 <=? i) with true by (symmetry; apply Z.leb_le; lia).
  replace (i <? Z.of_nat (List.length xs)) with true
    by (symmetry; apply Z.ltb_lt; lia).
  simpl.
  destruct (nth_error xs (Z.to_nat i)) as [x|] eqn:E; [eauto|].
  apply nth_error_None in E. lia.
Qed.

Lemma new_fields (y m d : Z) (dt : datetime.t) :
  datetime.new y m d = Ok dt ->
  dt = datetime.mk y m d /\ 1 <= y <= 9999 /\ 1 <= m <= 12
  /\ 1 <= d <= datetime._days_in_month y m.
Proof.
  unfold datetime.new, datetime.MINYEAR, datetime.MAXYEAR.
  destruct ((1 <=? y) && (y <=? 9999)) eqn:Hy; simpl; [|discriminate].
  destruct ((1 <=? m) && (m <=? 12)) eqn:Hm; simpl; [|discriminate].
  destruct ((1 <=? d) && (d <=? datetime._days_in_month y m)) eqn:Hd; simpl;
    [|discriminate].
  intros [= <-].
  apply andb_true_iff in Hy, Hm, Hd.
  rewrite !Z.leb_le in Hy, Hm, Hd. tauto.
Qed.

(** What [strptime] returns is a date of the calendar. *)
Lemma strptime_valid_date (s : pystr) (dt : datetime.t) :
  strptime s = Ok dt ->
  1 <= datetime.year dt <= 9999 /\ 1 <= datetime.month dt <= 12
  /\ 1 <= datetime.day dt
       <= datetime._days_in_month (datetime.year dt) (datetime.month dt).
Proof.
  unfold strptime.
  destruct (re_match format_regex s) as [[gs r]|]; [|discriminate].
  destruct r; [|discriminate].
  destruct gs as [|gY [|gm [|gd [|? ?]]]]; try discriminate.
  unfold bind.
  destruct (py_int gY); [|discriminate].
  destruct (py_int gm); [|discriminate].
  destruct (py_int gd); [|discriminate].
  intros H. apply new_fields in H. destruct H as (-> & H). exact H.
Qed.

Lemma days_before_year_succ (y : Z) :
  datetime._days_before_year (y + 1)
  = datetime._days_before_year y + 365
    + (if datetime._is_leap y then 1 else 0).
Proof.
  unfold datetime._days_before_year, datetime._is_leap.
  replace (y + 1 - 1) with (y - 1 + 1) by lia.
  destruct (y mod 4 =? 0) eqn:E4; destruct (y mod 100 =? 0) eqn:E100;
    destruct (y mod 400 =? 0) eqn:E400; simpl;
    rewrite ?Z.eqb_eq, ?Z.eqb_neq in *;
    Z.to_euclidean_division_equations; lia.
Qed.

(** The ordinal counts days: it grows by one from a date to the next. *)
Lemma ymd2ord_next_day (y m d : Z) :
  1 <= m <= 12 -> 1 <= d <= datetime._days_in_month y m ->
  let '(y', m', d') := next_day y m d in
  datetime._ymd2ord y' m' d' = datetime._ymd2ord y m d + 1.
Proof.
  intros Hm Hd. unfold next_day.
  destruct (d <? datetime._days_in_month y m) eqn:E.
  - unfold datetime._ymd2ord. lia.
  - apply Z.ltb_ge in E. assert (d = datetime._days_in_month y m) by lia.
    subst d. clear E Hd.
    destruct (m <? 12) eqn:E12.
    + apply Z.ltb_lt in E12.
      assert (Hc : m = 1 \/ m = 2 \/ m = 3 \/ m = 4 \/ m = 5 \/ m = 6 \/ m = 7
                   \/ m = 8 \/ m = 9 \/ m = 10 \/ m = 11) by lia.
      unfold datetime._ymd2ord, datetime._days_before_month,
        datetime._days_in_month.
      destruct (datetime._is_leap y);
        repeat (destruct Hc as [-> | Hc]; [reflexivity || (simpl; lia)|]);
        subst m; reflexivity || (simpl; lia).
    + apply Z.ltb_ge in E12. assert (m = 12) by lia. subst m.
      unfold datetime._ymd2ord. rewrite days_before_year_succ.
      unfold datetime._days_before_month, datetime._days_in_month.
      destruct (datetime._is_leap y); destruct (datetime._is_leap (y + 1));
        simpl; lia.
Qed.

(** The first day of the calendar has ordinal 1 and is a Monday. *)
Lemma first_day_is_monday :
  datetime._ymd2ord 1 1 1 = 1 /\ datetime.weekday (datetime.mk 1 1 1) = 0.
Proof. split; reflexivity. Qed.

(** The weekday advances by one, modulo seven, from a date to the next. *)
Lemma weekday_next_day (y m d : Z) :
  1 <= m <= 12 -> 1 <= d <= datetime._days_in_month y m ->
  let '(y', m', d') := next_day y m d in
  datetime.weekday (datetime.mk y' m' d')
  = (datetime.weekday (datetime.mk y m d) + 1) mod 7.
Proof.
  intros Hm Hd. pose proof (ymd2ord_next_day y m d Hm Hd) as H.
  destruct (next_day y m d) as [[y' m'] d'].
  unfold datetime.weekday, datetime.toordinal. simpl. rewrite H.
  rewrite Z.add_mod_idemp_l by lia. f_equal. lia.
Qed.

(** ** Rendering of numbers *)

Lemma int_digits_app (s : pystr) : forall acc c v,
  unicode_decimal c = Some v ->
  int_digits acc (s ++ [c])
  = (n <- int_digits acc s ;; Ok (n * 10 + v)).
Proof.
  induction s as [|x s IH]; simpl; intros acc c v H.
  - rewrite H. reflexivity.
  - destruct (unicode_decimal x); [apply IH; assumption | reflexivity].
Qed.

Lemma ascii_digit_value (v : Z) : 0 <= v < 10 -> unicode_decimal (48 + v) = Some v.
Proof.
  intros H.
  assert (Hc : v = 0 \/ v = 1 \/ v = 2 \/ v = 3 \/ v = 4 \/ v = 5 \/ v = 6
               \/ v = 7 \/ v = 8 \/ v = 9) by lia.
  repeat (destruct Hc as [-> | Hc]; [reflexivity|]). subst; reflexivity.
Qed.

(** The digits written for a number read back as that number, as long as
    the number fits the width. *)
Lemma zero_padded_value (w : nat) : forall n,
  0 <= n < 10 ^ Z.of_nat w ->
  int_digits 0 (datetime.zero_padded w n) = Ok n.
Proof.
  induction w as [|w IH]; intros n H.
  - simpl in *. f_equal. lia.
  - cbn [datetime.zero_padded].
    rewrite (int_digits_app _ 0 _ (n mod 10))
      by (apply ascii_digit_value; apply Z.mod_pos_bound; lia).
    rewrite IH.
    + simpl. f_equal. pose proof (Z.div_mod n 10). lia.
    + rewrite Nat2Z.inj_succ, Z.pow_succ_r in H by lia.
      split; [apply Z.div_pos; lia | apply Z.div_lt_upper_bound; lia].
Qed.

(** ** The two formatters *)

Lemma formatear_fecha_ok (s : pystr) (dt : datetime.t) :
  strptime s = Ok dt ->
  exists dia,
    nth_error dias_semana (Z.to_nat (datetime.weekday dt)) = Some dia
    /\ formatear_fecha s = Ok (dia ++ py " " ++ datetime.strftime_dmY dt).
Proof.
  intros H. unfold formatear_fecha. rewrite H. cbn [bind].
  destruct (getitem_nth_error dias_semana (datetime.weekday dt))
    as (dia & Hn & Hg); [apply weekday_range|].
  rewrite Hg. cbn [bind try_except]. eauto.
Qed.

Lemma formatear_fecha_compacta_ok (s : pystr) (dt : datetime.t) :
  strptime s = Ok dt ->
  exists dia,
    nth_error dias_semana_abrev (Z.to_nat (datetime.weekday dt)) = Some dia
    /\ formatear_fecha_compacta s = Ok (dia ++ py " " ++ datetime.strftime_dmY dt).
Proof.
  intros H. unfold formatear_fecha_compacta. rewrite H. cbn [bind].
  destruct (getitem_nth_error dias_semana_abrev (datetime.weekday dt))
    as (dia & Hn & Hg); [apply weekday_range|].
  rewrite Hg. cbn [bind try_except]. eauto.
Qed.

Lemma formatear_fecha_invalid (s : pystr) :
  strptime s = Raise ValueError -> formatear_fecha s = Ok s.
Proof. intros H. unfold formatear_fecha. rewrite H. reflexivity. Qed.

Lemma formatear_fecha_compacta_invalid (s : pystr) :
  strptime s = Raise ValueError -> formatear_fecha_compacta s = Ok s.
Proof. intros H. unfold formatear_fecha_compacta. rewrite H. reflexivity. Qed.

Lemma formatear_fecha_returns (s : pystr) : exists r, formatear_fecha s = Ok r.
Proof.
  destruct (strptime_cases s) as [[dt H] | H].
  - destruct (formatear_fecha_ok s dt H) as (dia & _ & E). eauto.
  - rewrite (formatear_fecha_invalid s H). eauto.
Qed.

Lemma formatear_fecha_compacta_returns (s : pystr) :
  exists r, formatear_fecha_compacta s = Ok r.
Proof.
  destruct (strptime_cases s) as [[dt H] | H].
  - destruct (formatear_fecha_compacta_ok s dt H) as (dia & _ & E). eauto.
  - rewrite (formatear_fecha_compacta_invalid s H). eauto.
Qed.

(** ** The validator *)

Lemma validar_cascade (f e a h d : pystr) :
  validar_datos_examen f e a h d =
  Ok match strptime f with
     | Raise _ => (false, py "Fecha inválida")
     | Ok _ =>
         if negb (py_in e ESPACIOS_CURRICULARES) then
           (false, py "Espacio curricular no válido")
         else if negb (py_in a anios_permitidos) then (false, py "Año no válido")
         else if py_not (strip h) then (false, py "Horario no puede estar vacío")
         else if py_not (strip d) then (false, py "Docente no puede estar vacío")
         else (true, py "")
     end.
Proof.
  unfold validar_datos_examen.
  destruct (strptime f) as [dt|x] eqn:E.
  - repeat match goal with |- context [if ?b then _ else _] => destruct b end;
      reflexivity.
  - apply strptime_raises in E. subst x. reflexivity.
Qed.

Lemma py_not_false (s : pystr) : py_not s = false <-> s <> [].
Proof. destruct s; simpl; split; congruence. Qed.

Lemma validar_accepts_iff (f e a h d : pystr) :
  validar_datos_examen f e a h d = Ok (true, py "")
  <-> (exists dt, strptime f = Ok dt)
      /\ In e ESPACIOS_CURRICULARES /\ In a anios_permitidos
      /\ strip h <> [] /\ strip d <> [].
Proof.
  rewrite validar_cascade, <- !py_in_In, <- !py_not_false.
  destruct (strptime f) as [dt|x].
  - destruct (py_in e ESPACIOS_CURRICULARES); cbn [negb];
      [|split; [discriminate | intros (_ & ? & _); discriminate]].
    destruct (py_in a anios_permitidos); cbn [negb];
      [|split; [discriminate | intros (_ & _ & ? & _); discriminate]].
    destruct (py_not (strip h)); cbn [negb];
      [split; [discriminate | intros (_ & _ & _ & ? & _); discriminate]|].
    destruct (py_not (strip d)); cbn [negb];
      [split; [discriminate | intros (_ & _ & _ & _ & ?); discriminate]|].
    split; [eauto 6 | reflexivity].
  - split; [discriminate | intros ((dt & ?) & _); discriminate].
Qed.

(** ** Dates in ISO form *)

Lemma ascii_digit_not_space (v : Z) : 0 <= v < 10 -> is_space (48 + v) = false.
Proof.
  intros H.
  assert (Hc : v = 0 \/ v = 1 \/ v = 2 \/ v = 3 \/ v = 4 \/ v = 5 \/ v = 6
               \/ v = 7 \/ v = 8 \/ v = 9) by lia.
  repeat (destruct Hc as [-> | Hc]; [reflexivity|]). subst; reflexivity.
Qed.

Lemma zero_padded_digits (w : nat) (n : Z) :
  Forall (fun c => exists v, 0 <= v < 10 /\ c = 48 + v) (datetime.zero_padded w n).
Proof.
  revert n. induction w as [|w IH]; intros n; cbn [datetime.zero_padded].
  - constructor.
  - apply Forall_app. split; [apply IH|].
    constructor; [|constructor].
    exists (n mod 10). split; [apply Z.mod_pos_bound; lia | reflexivity].
Qed.

Lemma lstrip_no_space (s : pystr) :
  Forall (fun c => is_space c = false) s -> lstrip s = s.
Proof. intros [|c s' Hc _]; [reflexivity | simpl; rewrite Hc; reflexivity]. Qed.

Lemma strip_no_space (s : pystr) :
  Forall (fun c => is_space c = false) s -> strip s = s.
Proof.
  intros F. unfold strip, rstrip. rewrite (lstrip_no_space s F).
  rewrite lstrip_no_space by (apply Forall_rev; exact F).
  apply rev_involutive.
Qed.

(** [int] reads the digits written for a number back as that number. *)
Lemma py_int_zero_padded (w : nat) (n : Z) :
  0 <= n < 10 ^ Z.of_nat (S w) ->
  py_int (datetime.zero_padded (S w) n) = Ok n.
Proof.
  intros H. unfold py_int. rewrite strip_no_space.
  - destruct (datetime.zero_padded (S w) n) eqn:E.
    + cbn [datetime.zero_padded] in E. destruct (datetime.zero_padded w (n / 10)); discriminate.
    + rewrite <- E. apply zero_padded_value. exact H.
  - eapply Forall_impl; [|apply zero_padded_digits].
    intros c (v & Hv & ->). apply ascii_digit_not_space. exact Hv.
Qed.

Lemma re_match_year (y : Z) (p : list item) (s : pystr) :
  re_match (re_Y :: p) (datetime.zero_padded 4 y ++ s)
  = match re_match p s with
    | Some (gs, r) => Some (datetime.zero_padded 4 y :: gs, r)
    | None => None
    end.
Proof.
  cbn [datetime.zero_padded app].
  set (a := 48 + y / 10 / 10 / 10 mod 10). set (b := 48 + y / 10 / 10 mod 10).
  set (c := 48 + y / 10 mod 10). set (e := 48 + y mod 10).
  assert (Ha : cls_match Digit a = true)
    by (unfold cls_match, a; rewrite ascii_digit_value; [reflexivity | apply Z.mod_pos_bound; lia]).
  assert (Hb : cls_match Digit b = true)
    by (unfold cls_match, b; rewrite ascii_digit_value; [reflexivity | apply Z.mod_pos_bound; lia]).
  assert (Hc : cls_match Digit c = true)
    by (unfold cls_match, c; rewrite ascii_digit_value; [reflexivity | apply Z.mod_pos_bound; lia]).
  assert (He : cls_match Digit e = true)
    by (unfold cls_match, e; rewrite ascii_digit_value; [reflexivity | apply Z.mod_pos_bound; lia]).
  unfold re_Y. cbn [re_match match_seq]. rewrite Ha, Hb, Hc, He.
  destruct (re_match p s) as [[gs r]|]; reflexivity.
Qed.

Lemma all_month_day_groups_ok : all_month_day_groups = true.
Proof. vm_compute. reflexivity. Qed.

Lemma month_day_groups_ok (y m d : Z) :
  valid_date y m d -> month_day_groups m d = true.
Proof.
  intros (_ & Hm & Hd).
  assert (Hd' : 1 <= d <= 31).
  { split; [lia|]. unfold datetime._days_in_month in Hd.
    destruct ((m =? 2) && datetime._is_leap y); [lia|].
    assert (Hc : m = 1 \/ m = 2 \/ m = 3 \/ m = 4 \/ m = 5 \/ m = 6 \/ m = 7
                 \/ m = 8 \/ m = 9 \/ m = 10 \/ m = 11 \/ m = 12) by lia.
    repeat (destruct Hc as [-> | Hc]; [simpl in Hd; lia|]). subst m. simpl in Hd. lia. }
  pose proof all_month_day_groups_ok as A. unfold all_month_day_groups in A.
  rewrite forallb_forall in A. specialize (A (Z.to_nat m)).
  rewrite Z2Nat.id in A by lia.
  assert (Im : In (Z.to_nat m) (seq 1 12)) by (apply in_seq; lia).
  specialize (A Im). rewrite forallb_forall in A. apply A.
  apply in_map_iff. exists (Z.to_nat d). split; [apply Z2Nat.id; lia | apply in_seq; lia].
Qed.

(** A date of the calendar written in ISO form parses as that date. *)
Lemma strptime_isoformat (y m d : Z) :
  valid_date y m d ->
  strptime (isoformat y m d) = Ok (datetime.mk y m d).
Proof.
  intros V. pose proof (month_day_groups_ok y m d V) as G.
  destruct V as (Hy & Hm & Hd).
  unfold strptime, isoformat, format_regex. rewrite re_match_year.
  unfold month_day_groups in G.
  destruct (re_match [Char (Lit 45); re_m; Char (Lit 45); re_d] _)
    as [[[|gm [|gd [|? ?]]] [|? ?]]|]; try discriminate G.
  apply andb_true_iff in G. destruct G as [Gm Gd].
  apply pystr_eqb_eq in Gm, Gd. subst gm gd.
  assert (Dm : datetime._days_in_month y m <= 31).
  { unfold datetime._days_in_month.
    destruct ((m =? 2) && datetime._is_leap y); [lia|].
    assert (Hc : m = 1 \/ m = 2 \/ m = 3 \/ m = 4 \/ m = 5 \/ m = 6 \/ m = 7
                 \/ m = 8 \/ m = 9 \/ m = 10 \/ m = 11 \/ m = 12) by lia.
    repeat (destruct Hc as [-> | Hc]; [simpl; lia|]). subst m. simpl. lia. }
  rewrite (py_int_zero_padded 3 y) by (simpl; lia).
  rewrite (py_int_zero_padded 1 m) by (simpl; lia).
  rewrite (py_int_zero_padded 1 d) by (simpl; lia).
  cbn [bind]. unfold datetime.new, datetime.MINYEAR, datetime.MAXYEAR.
  replace ((1 <=? y) && (y <=? 9999)) with true
    by (symmetry; apply andb_true_iff; rewrite !Z.leb_le; lia).
  replace ((1 <=? m) && (m <=? 12)) with true
    by (symmetry; apply andb_true_iff; rewrite !Z.leb_le; lia).
  replace ((1 <=? d) && (d <=? datetime._days_in_month y m)) with true
    by (symmetry; apply andb_true_iff; rewrite !Z.leb_le; lia).
  reflexivity.
Qed.

(** ** Claims on the validator and the formatters *)

(** C1: the validator checks, in this order, that the date parses under
    ['%Y-%m-%d'], that the subject is in the catalog, that the year is one of
    the five labels, that the time slot is not blank and that the teacher is
    not blank; it returns [(False, reason)] for the first rule that fails and
    [(True, "")] exactly when every rule holds. *)
Theorem validar_datos_examen_first_failure (f e a h d : pystr) :
  (~ parses f ->
   validar_datos_examen f e a h d = Ok (false, py "Fecha inválida"))
  /\ (parses f -> ~ In e ESPACIOS_CURRICULARES ->
      validar_datos_examen f e a h d = Ok (false, py "Espacio curricular no válido"))
  /\ (parses f -> In e ESPACIOS_CURRICULARES ->
      ~ In a [py "1° año"; py "2° año"; py "3° año"; py "4° año"; py "5° año"] ->
      validar_datos_examen f e a h d = Ok (false, py "Año no válido"))
  /\ (parses f -> In e ESPACIOS_CURRICULARES ->
      In a [py "1° año"; py "2° año"; py "3° año"; py "4° año"; py "5° año"] ->
      strip h = [] ->
      validar_datos_examen f e a h d = Ok (false, py "Horario no puede estar vacío"))
  /\ (parses f -> In e ESPACIOS_CURRICULARES ->
      In a [py "1° año"; py "2° año"; py "3° año"; py "4° año"; py "5° año"] ->
      strip h <> [] -> strip d = [] ->
      validar_datos_examen f e a h d = Ok (false, py "Docente no puede estar vacío"))
  /\ (validar_datos_examen f e a h d = Ok (true, py "")
      <-> parses f /\ In e ESPACIOS_CURRICULARES
          /\ In a [py "1° año"; py "2° año"; py "3° año"; py "4° año"; py "5° año"]
          /\ strip h <> [] /\ strip d <> [])
  /\ (forall msg, validar_datos_examen f e a h d = Ok (true, msg) -> msg = py "").
Proof.
  change [py "1° año"; py "2° año"; py "3° año"; py "4° año"; py "5° año"]
    with anios_permitidos.
  pose proof (validar_cascade f e a h d) as C.
  pose proof (validar_accepts_iff f e a h d) as A.
  unfold parses.
  split; [|split; [|split; [|split; [|split; [|split]]]]].
  - intros N. rewrite C. destruct (strptime f) as [dt|x]; [|reflexivity].
    exfalso. apply N. eauto.
  - intros [dt P] N. rewrite C, P.
    destruct (py_in e ESPACIOS_CURRICULARES) eqn:E; [|reflexivity].
    apply py_in_In in E. contradiction.
  - intros [dt P] He N. rewrite C, P.
    apply py_in_In in He. rewrite He. cbn [negb].
    destruct (py_in a anios_permitidos) eqn:E; [|reflexivity].
    apply py_in_In in E. contradiction.
  - intros [dt P] He Ha Hh. rewrite C, P.
    apply py_in_In in He, Ha. rewrite He, Ha, Hh. reflexivity.
  - intros [dt P] He Ha Hh Hd. rewrite C, P.
    apply py_in_In in He, Ha. apply py_not_false in Hh.
    rewrite He, Ha, Hh, Hd. reflexivity.
  - exact A.
  - intros msg. rewrite C. intros [= H].
    destruct (strptime f); [|discriminate].
    repeat match type of H with
           | context [if ?b then _ else _] => destruct b
           end; try discriminate.
    congruence.
Qed.

Lemma validar_datos_examen_first_failure_witness :
  validar_datos_examen (py "2025-09-12") (py "Latín") (py "1° año")
    (py "09:00") (py "DIAZ, PAMELA")
  = Ok (false, py "Espacio curricular no válido").
Proof.
  apply (proj1 (proj2 (validar_datos_examen_first_failure
           (py "2025-09-12") (py "Latín") (py "1° año")
           (py "09:00") (py "DIAZ, PAMELA")))).
  - exists (datetime.mk 2025 9 12). vm_compute. reflexivity.
  - vm_compute. intros H.
    repeat (destruct H as [H | H]; [discriminate|]). exact H.
Defined.

(** [%Y] writes the four-digit text of the year without its leading zeros. *)
Lemma strftime_Y_digits (y : Z) :
  1 <= y <= 9999 ->
  exists ceros,
    datetime.zero_padded 4 y = repeat 48 ceros ++ datetime.strftime_Y y
    /\ hd 48 (datetime.strftime_Y y) <> 48
    /\ (1000 <= y -> datetime.strftime_Y y = datetime.zero_padded 4 y)
    /\ (y < 1000 -> (List.length (datetime.strftime_Y y) < 4)%nat).
Proof.
  intros H. unfold datetime.strftime_Y.
  destruct (y <? 10) eqn:H1; [|destruct (y <? 100) eqn:H2;
    [|destruct (y <? 1000) eqn:H3]].
  - apply Z.ltb_lt in H1. exists 3%nat.
    cbn [datetime.zero_padded app repeat hd List.length].
    replace (y / 10) with 0 by (Z.to_euclidean_division_equations; lia).
    rewrite ?Zdiv_0_l, ?Zmod_0_l.
    split; [reflexivity|].
    split; [Z.to_euclidean_division_equations; lia|].
    split; [intros; lia | intros; lia].
  - apply Z.ltb_ge in H1. apply Z.ltb_lt in H2. exists 2%nat.
    cbn [datetime.zero_padded app repeat hd List.length].
    replace (y / 10 / 10) with 0 by (Z.to_euclidean_division_equations; lia).
    rewrite ?Zdiv_0_l, ?Zmod_0_l.
    split; [reflexivity|].
    split; [Z.to_euclidean_division_equations; lia|].
    split; [intros; lia | intros; lia].
  - apply Z.ltb_ge in H2. apply Z.ltb_lt in H3. exists 1%nat.
    cbn [datetime.zero_padded app repeat hd List.length].
    replace (y / 10 / 10 / 10) with 0 by (Z.to_euclidean_division_equations; lia).
    rewrite ?Zdiv_0_l, ?Zmod_0_l.
    split; [reflexivity|].
    split; [Z.to_euclidean_division_equations; lia|].
    split; [intros; lia | intros; lia].
  - apply Z.ltb_ge in H3. exists 0%nat.
    cbn [datetime.zero_padded app repeat hd List.length].
    split; [reflexivity|].
    split; [Z.to_euclidean_division_equations; lia|].
    split; [reflexivity | intros; lia].
Qed.

(** C2, evaluated on the code: for a string that parses as a date, the long
    form is the weekday name taken from LUNES..DOMINGO at the date's weekday
    (Monday is 0), a space, DD/MM/ and the year; the compact form has the
    three-letter token from LUN..DOM instead.  The year is written in
    decimal without leading zeros: it is the four-digit text YYYY with its
    leading zeros removed, hence YYYY itself from the year 1000 on, as the
    comment in the source asks (DD/MM/YYYY), and shorter below: the long
    form of 2025-09-12 is VIERNES 12/09/2025, that of 0999-01-01 is
    MARTES 01/01/999.  The ISO text of a date of the calendar parses as that
    date, so the digits written are those of the input; the weekday is 0 on
    0001-01-01, a Monday, and advances by one, modulo seven, with each
    day. *)
Theorem formatear_fecha_weekday_table :
  (forall d dt, strptime d = Ok dt ->
     exists dia abrev ceros yyyy,
       nth_error [py "LUNES"; py "MARTES"; py "MIÉRCOLES"; py "JUEVES";
                  py "VIERNES"; py "SÁBADO"; py "DOMINGO"]
                 (Z.to_nat (datetime.weekday dt)) = Some dia
       /\ nth_error [py "LUN"; py "MAR"; py "MIE"; py "JUE"; py "VIE";
                     py "SAB"; py "DOM"]
                    (Z.to_nat (datetime.weekday dt)) = Some abrev
       /\ formatear_fecha d
          = Ok (dia ++ py " " ++ datetime.zero_padded 2 (datetime.day dt)
                ++ py "/" ++ datetime.zero_padded 2 (datetime.month dt)
                ++ py "/" ++ yyyy)
       /\ formatear_fecha_compacta d
          = Ok (abrev ++ py " " ++ datetime.zero_padded 2 (datetime.day dt)
                ++ py "/" ++ datetime.zero_padded 2 (datetime.month dt)
                ++ py "/" ++ yyyy)
       /\ datetime.zero_padded 4 (datetime.year dt) = repeat 48 ceros ++ yyyy
       /\ hd 48 yyyy <> 48
       /\ (1000 <= datetime.year dt ->
           yyyy = datetime.zero_padded 4 (datetime.year dt))
       /\ (datetime.year dt < 1000 -> (List.length yyyy < 4)%nat))
  /\ formatear_fecha (py "2025-09-12") = Ok (py "VIERNES 12/09/2025")
  /\ formatear_fecha_compacta (py "2025-09-12") = Ok (py "VIE 12/09/2025")
  /\ strptime (py "0999-01-01") = Ok (datetime.mk 999 1 1)
  /\ formatear_fecha (py "0999-01-01") = Ok (py "MARTES 01/01/999")
  /\ formatear_fecha_compacta (py "0999-01-01") = Ok (py "MAR 01/01/999")
  /\ (forall y m d, valid_date y m d ->
        strptime (isoformat y m d) = Ok (datetime.mk y m d))
  /\ datetime.weekday (datetime.mk 1 1 1) = 0
  /\ (forall y m d, valid_date y m d ->
        let '(y', m', d') := next_day y m d in
        datetime.weekday (datetime.mk y' m' d')
        = (datetime.weekday (datetime.mk y m d) + 1) mod 7).
Proof.
  split; [|split; [|split; [|split; [|split; [|split; [|split; [|split]]]]]]].
  - intros d dt H.
    destruct (formatear_fecha_ok d dt H) as (dia & Hd & E1).
    destruct (formatear_fecha_compacta_ok d dt H) as (abrev & Ha & E2).
    destruct (strptime_valid_date d dt H) as (Hy & _).
    destruct (strftime_Y_digits (datetime.year dt) Hy)
      as (ceros & Z4 & Hh & Hge & Hlt).
    exists dia, abrev, ceros, (datetime.strftime_Y (datetime.year dt)).
    split; [exact Hd|]. split; [exact Ha|]. split; [exact E1|].
    split; [exact E2|]. split; [exact Z4|]. split; [exact Hh|].
    split; [exact Hge | exact Hlt].
  - vm_compute. reflexivity.
  - vm_compute. reflexivity.
  - vm_compute. reflexivity.
  - vm_compute. reflexivity.
  - vm_compute. reflexivity.
  - exact strptime_isoformat.
  - reflexivity.
  - intros y m d (_ & Hm & Hd). apply weekday_next_day; assumption.
Qed.

Lemma formatear_fecha_weekday_table_witness :
  exists dia abrev ceros yyyy,
    nth_error [py "LUNES"; py "MARTES"; py "MIÉRCOLES"; py "JUEVES";
               py "VIERNES"; py "SÁBADO"; py "DOMINGO"] 1%nat = Some dia
    /\ nth_error [py "LUN"; py "MAR"; py "MIE"; py "JUE"; py "VIE";
                  py "SAB"; py "DOM"] 1%nat = Some abrev
    /\ formatear_fecha (py "0999-01-01")
       = Ok (dia ++ py " " ++ py "01" ++ py "/" ++ py "01" ++ py "/" ++ yyyy)
    /\ formatear_fecha_compacta (py "0999-01-01")
       = Ok (abrev ++ py " " ++ py "01" ++ py "/" ++ py "01" ++ py "/" ++ yyyy)
    /\ py "0999" = repeat 48 ceros ++ yyyy
    /\ hd 48 yyyy <> 48
    /\ (1000 <= 999 -> yyyy = py "0999")
    /\ (999 < 1000 -> (List.length yyyy < 4)%nat).
Proof.
  apply (proj1 formatear_fecha_weekday_table (py "0999-01-01")
           (datetime.mk 999 1 1)).
  vm_compute. reflexivity.
Defined.

(** The form DD/MM/YYYY is not reached below the year 1000: 0999-01-01
    parses, and both formatters write its year as 999, so the long form is
    no weekday name followed by 01/01/0999. *)
Lemma formatear_fecha_four_digit_year_fails :
  strptime (py "0999-01-01") = Ok (datetime.mk 999 1 1)
  /\ formatear_fecha (py "0999-01-01") = Ok (py "MARTES 01/01/999")
  /\ formatear_fecha_compacta (py "0999-01-01") = Ok (py "MAR 01/01/999")
  /\ ~ (forall d dt, strptime d = Ok dt ->
          exists dia,
            formatear_fecha d
            = Ok (dia ++ py " " ++ datetime.zero_padded 2 (datetime.day dt)
                  ++ py "/" ++ datetime.zero_padded 2 (datetime.month dt)
                  ++ py "/" ++ datetime.zero_padded 4 (datetime.year dt))).
Proof.
  assert (P : strptime (py "0999-01-01") = Ok (datetime.mk 999 1 1))
    by (vm_compute; reflexivity).
  assert (F : formatear_fecha (py "0999-01-01") = Ok (py "MARTES 01/01/999"))
    by (vm_compute; reflexivity).
  split; [exact P|]. split; [exact F|].
  split; [vm_compute; reflexivity|].
  intros H. destruct (H _ _ P) as [dia E]. rewrite F in E.
  injection E as E. apply (f_equal (@rev Z)) in E.
  rewrite rev_app_distr in E. vm_compute in E. discriminate E.
Qed.

(** C7: on a string that does not parse as a date both formatters return
    the string itself, and neither of them raises on any string. *)
Theorem formatear_fecha_fail_soft :
  (forall s, ~ parses s ->
     formatear_fecha s = Ok s /\ formatear_fecha_compacta s = Ok s)
  /\ (forall s, exists r r',
        formatear_fecha s = Ok r /\ formatear_fecha_compacta s = Ok r').
Proof.
  split.
  - intros s N.
    destruct (strptime_cases s) as [P | H]; [contradiction|].
    split; [apply formatear_fecha_invalid | apply formatear_fecha_compacta_invalid];
      assumption.
  - intros s.
    destruct (formatear_fecha_returns s) as [r Hr].
    destruct (formatear_fecha_compacta_returns s) as [r' Hr'].
    eauto.
Qed.

Lemma formatear_fecha_fail_soft_witness :
  formatear_fecha (py "fecha-invalida") = Ok (py "fecha-invalida")
  /\ formatear_fecha_compacta (py "fecha-invalida") = Ok (py "fecha-invalida").
Proof.
  apply (proj1 formatear_fecha_fail_soft (py "fecha-invalida")).
  unfold parses. intros [dt H]. vm_compute in H. discriminate H.
Defined.

(** C8: on any five strings the validator returns a pair of a boolean and a
    string and raises nothing; a string that is not a date leads to the
    ordinary failure result. *)
Theorem validar_datos_examen_total (f e a h d : pystr) :
  (exists es_valido mensaje_error,
     validar_datos_examen f e a h d = Ok (es_valido, mensaje_error))
  /\ (~ parses f ->
      validar_datos_examen f e a h d = Ok (false, py "Fecha inválida")).
Proof.
  pose proof (validar_cascade f e a h d) as C. split.
  - rewrite C.
    match goal with |- context [Ok ?p] => destruct p as [b m] end. eauto.
  - intros N. rewrite C. destruct (strptime f) as [dt|x] eqn:E; [|reflexivity].
    exfalso. apply N. exists dt. exact E.
Qed.

Lemma validar_datos_examen_total_witness :
  validar_datos_examen (py "12/09/2025") (py "") (py " ") (py "") (py "")
  = Ok (false, py "Fecha inválida").
Proof.
  apply (proj2 (validar_datos_examen_total (py "12/09/2025") (py "") (py " ")
                  (py "") (py ""))).
  unfold parses. intros [dt H]. vm_compute in H. discriminate H.
Defined.

(** ** Ordering of TEXT values *)

Lemma pystr_compare_eq (a b : pystr) : pystr_compare a b = Eq <-> a = b.
Proof.
  revert b; induction a as [|x a IH]; intros [|y b]; simpl;
    try (split; discriminate); try tauto.
  destruct (Z.compare_spec x y) as [-> | H | H].
  - rewrite IH. split; [intros ->; reflexivity | intros [= ->]; reflexivity].
  - split; [discriminate | intros [= -> _]; lia].
  - split; [discriminate | intros [= -> _]; lia].
Qed.

Lemma pystr_compare_antisym (a b : pystr) :
  pystr_compare b a = CompOpp (pystr_compare a b).
Proof.
  revert b; induction a as [|x a IH]; intros [|y b]; simpl; try reflexivity.
  rewrite (Z.compare_antisym x y).
  destruct (x ?= y); simpl; [apply IH | reflexivity | reflexivity].
Qed.

Lemma pystr_compare_trans (a : pystr) : forall b c,
  pystr_compare a b <> Gt -> pystr_compare b c <> Gt -> pystr_compare a c <> Gt.
Proof.
  induction a as [|x a IH]; intros [|y b] [|z c]; simpl; try congruence.
  destruct (Z.compare_spec x y) as [Exy | Hxy | Hxy];
    destruct (Z.compare_spec y z) as [Eyz | Hyz | Hyz]; try congruence.
  - replace (x ?= z) with Eq by (symmetry; apply Z.compare_eq_iff; lia).
    apply IH.
  - replace (x ?= z) with Lt by (symmetry; apply Z.compare_lt_iff; lia).
    discriminate.
  - replace (x ?= z) with Lt by (symmetry; apply Z.compare_lt_iff; lia).
    discriminate.
  - replace (x ?= z) with Lt by (symmetry; apply Z.compare_lt_iff; lia).
    discriminate.
Qed.

Lemma fecha_leb_le (x y : examen) : fecha_leb x y = true <-> fecha_le x y.
Proof.
  unfold fecha_leb, fecha_le.
  destruct (pystr_compare (fecha x) (fecha y)); split; congruence.
Qed.

Lemma fecha_le_total (x y : examen) : fecha_leb x y = false -> fecha_le y x.
Proof.
  unfold fecha_leb, fecha_le. rewrite (pystr_compare_antisym (fecha x) (fecha y)).
  destruct (pystr_compare (fecha x) (fecha y)); simpl; congruence.
Qed.

Lemma fecha_le_trans (x y z : examen) : fecha_le x y -> fecha_le y z -> fecha_le x z.
Proof. unfold fecha_le. apply pystr_compare_trans. Qed.

(** ** [ORDER BY fecha] *)

Lemma insert_row_perm (x : examen) (l : list examen) :
  Permutation (x :: l) (insert_row x l).
Proof.
  induction l as [|y l IH]; simpl; [reflexivity|].
  destruct (fecha_leb x y); [reflexivity|].
  rewrite perm_swap. apply perm_skip. exact IH.
Qed.

Lemma order_by_fecha_perm (l : list examen) : Permutation l (order_by_fecha l).
Proof.
  induction l as [|x l IH]; simpl; [reflexivity|].
  rewrite <- insert_row_perm. apply perm_skip. exact IH.
Qed.

Lemma insert_row_sorted (x : examen) (l : list examen) :
  StronglySorted fecha_le l -> StronglySorted fecha_le (insert_row x l).
Proof.
  induction l as [|y l IH]; simpl; intros S.
  - constructor; constructor.
  - destruct (fecha_leb x y) eqn:E.
    + apply fecha_leb_le in E. inversion S as [|? ? S' F]; subst.
      constructor; [assumption|]. constructor; [assumption|].
      eapply Forall_impl; [|exact F]. intros z Hz. eapply fecha_le_trans; eassumption.
    + apply fecha_le_total in E. inversion S as [|? ? S' F]; subst.
      constructor; [apply IH; assumption|].
      rewrite <- insert_row_perm. constructor; assumption.
Qed.

Lemma order_by_fecha_sorted (l : list examen) :
  StronglySorted fecha_le (order_by_fecha l).
Proof.
  induction l as [|x l IH]; simpl; [constructor | apply insert_row_sorted, IH].
Qed.

(** Rows with the same date keep the order of the table scan. *)
Lemma insert_row_con_fecha (k : pystr) (x : examen) (l : list examen) :
  con_fecha k (insert_row x l) = con_fecha k (x :: l).
Proof.
  unfold con_fecha. induction l as [|y l IH]; [reflexivity|].
  cbn [insert_row]. destruct (fecha_leb x y) eqn:E; [reflexivity|].
  cbn [filter] in *. rewrite IH.
  destruct (pystr_eqb (fecha x) k) eqn:Ex;
    destruct (pystr_eqb (fecha y) k) eqn:Ey; try reflexivity.
  apply pystr_eqb_eq in Ex, Ey. exfalso.
  unfold fecha_leb in E. rewrite Ex, <- Ey in E.
  rewrite (proj2 (pystr_compare_eq (fecha y) (fecha y)) eq_refl) in E.
  discriminate.
Qed.

Lemma order_by_fecha_stable (k : pystr) (l : list examen) :
  con_fecha k (order_by_fecha l) = con_fecha k l.
Proof.
  induction l as [|x l IH]; [reflexivity|].
  cbn [order_by_fecha fold_right]. rewrite insert_row_con_fecha.
  unfold con_fecha in *. cbn [filter]. fold (order_by_fecha l). rewrite IH. reflexivity.
Qed.

(** ** The store *)

Lemma max_rowid_ge (l : list examen) (r : examen) : In r l -> id r <= max_rowid l.
Proof.
  induction l as [|x l IH]; simpl; [tauto|].
  intros [-> | H]; [lia | specialize (IH H); lia].
Qed.

Lemma sql_insert_fresh (f e a h d : pystr) (db : database) :
  let i := sqlite_sequence (sql_insert f e a h d db) in
  examenes (sql_insert f e a h d db) = examenes db ++ [mk_examen i f e a h d]
  /\ sqlite_sequence db < i
  /\ Forall (fun r => id r < i) (examenes db).
Proof.
  simpl. split; [reflexivity|]. split; [lia|].
  apply Forall_forall. intros r H. apply max_rowid_ge in H. lia.
Qed.

Lemma sql_update_ids (i : Z) (f e a h d : pystr) (db : database) :
  map id (examenes (sql_update i f e a h d db)) = map id (examenes db).
Proof.
  simpl. rewrite map_map. apply map_ext. intros r.
  destruct (id r =? i); reflexivity.
Qed.

Lemma wf_empty : wf_db empty_db.
Proof. split; constructor. Qed.

Lemma StronglySorted_lt_snoc (l : list Z) (i : Z) :
  StronglySorted Z.lt l -> Forall (fun x => x < i) l ->
  StronglySorted Z.lt (l ++ [i]).
Proof.
  induction l as [|x l IH]; simpl; intros S F.
  - constructor; constructor.
  - inversion S as [|? ? S' F']; subst. inversion F as [|? ? Hx Fl]; subst.
    constructor; [apply IH; assumption|].
    apply Forall_app. split; [assumption | constructor; [exact Hx | constructor]].
Qed.

Lemma wf_sql_insert (f e a h d : pystr) (db : database) :
  wf_db db -> wf_db (sql_insert f e a h d db).
Proof.
  intros [S B]. destruct (sql_insert_fresh f e a h d db) as (E & Hs & F).
  split.
  - rewrite E, map_app. apply StronglySorted_lt_snoc; [exact S|].
    apply Forall_map. exact F.
  - rewrite E. apply Forall_app. split.
    + eapply Forall_impl; [|exact F]. intros r Hr. cbv beta in *. lia.
    + constructor; [cbn [id]; lia | constructor].
Qed.

Lemma wf_sql_update (i : Z) (f e a h d : pystr) (db : database) :
  wf_db db -> wf_db (sql_update i f e a h d db).
Proof.
  intros [S B]. split.
  - rewrite sql_update_ids. exact S.
  - simpl. apply Forall_map. eapply Forall_impl; [|exact B].
    intros r Hr. destruct (id r =? i); exact Hr.
Qed.

Lemma StronglySorted_lt_filter (p : examen -> bool) (l : list examen) :
  StronglySorted Z.lt (map id l) -> StronglySorted Z.lt (map id (filter p l)).
Proof.
  induction l as [|x l IH]; simpl; intros S; [constructor|].
  inversion S as [|? ? S' F]; subst.
  destruct (p x); simpl; [|apply IH; assumption].
  constructor; [apply IH; assumption|].
  rewrite Forall_map in *. rewrite Forall_forall in *.
  intros r Hr. apply F. apply filter_In in Hr. tauto.
Qed.

Lemma wf_sql_delete (i : Z) (db : database) : wf_db db -> wf_db (sql_delete i db).
Proof.
  intros [S B]. split.
  - apply StronglySorted_lt_filter. exact S.
  - simpl. rewrite Forall_forall in *. intros r Hr. apply B.
    apply filter_In in Hr. tauto.
Qed.

(** An id is bound as it is when it fits 64 bits and raises otherwise. *)
Lemma sqlite_bind_int_cases (i : Z) :
  (sqlite_integer i /\ sqlite_bind_int i = Ok i)
  \/ (~ sqlite_integer i /\ sqlite_bind_int i = Raise OverflowError).
Proof.
  unfold sqlite_bind_int, sqlite_integer.
  destruct (- 2 ^ 63 <=? i) eqn:L; destruct (i <? 2 ^ 63) eqn:U; simpl;
    try apply Z.leb_le in L; try apply Z.leb_gt in L;
    try apply Z.ltb_lt in U; try apply Z.ltb_ge in U;
    [left | right | right | right]; (split; [lia | reflexivity]).
Qed.

Lemma sqlite_bind_int_ok (i : Z) :
  sqlite_integer i -> sqlite_bind_int i = Ok i.
Proof.
  intros R. destruct (sqlite_bind_int_cases i) as [[_ E] | [N _]];
    [exact E | contradiction].
Qed.

Lemma sqlite_bind_int_overflow (i : Z) :
  ~ sqlite_integer i -> sqlite_bind_int i = Raise OverflowError.
Proof.
  intros N. destruct (sqlite_bind_int_cases i) as [[R _] | [_ E]];
    [contradiction | exact E].
Qed.

(** Whatever a route answers, the database it leaves is the old one or the
    result of one statement. *)
Lemma handle_effect (rl : bool) (rq : request) (db db' : database) (r : response) :
  handle rl rq db = Ok (r, db') ->
  db' = db
  \/ (exists f e a h d, db' = sql_insert f e a h d db)
  \/ (exists i f e a h d, db' = sql_update i f e a h d db)
  \/ (exists i, db' = sql_delete i db).
Proof.
  destruct rq as [|m fm|i m fm|i|t]; simpl.
  - unfold index, bind. destruct (mapM _ _); [|discriminate].
    intros [= <- <-]. auto.
  - unfold agregar. destruct m; [intros [= <- <-]; auto|].
    destruct (form_fecha fm); [|intros [= <- <-]; auto].
    destruct (form_espacio_curricular fm); [|intros [= <- <-]; auto].
    destruct (form_anio fm); [|intros [= <- <-]; auto].
    destruct (form_horario fm); [|intros [= <- <-]; auto].
    destruct (form_docente fm); [|intros [= <- <-]; auto].
    destruct (negb _); [intros [= <- <-]; auto|].
    unfold bind. destruct (validar_datos_examen _ _ _ _ _) as [[b msg]|]; [|discriminate].
    destruct b; simpl; intros [= <- <-]; [right; left; eauto 8 | auto].
  - unfold editar. destruct m.
    + destruct (sqlite_bind_int i) as [j|x]; cbn [bind]; [|discriminate].
      destruct (sql_select_by_id j db); intros [= <- <-]; auto.
    + destruct (form_fecha fm); [|intros [= <- <-]; auto].
      destruct (form_espacio_curricular fm); [|intros [= <- <-]; auto].
      destruct (form_anio fm); [|intros [= <- <-]; auto].
      destruct (form_horario fm); [|intros [= <- <-]; auto].
      destruct (form_docente fm); [|intros [= <- <-]; auto].
      destruct (negb _); [intros [= <- <-]; auto|].
      unfold bind. destruct (validar_datos_examen _ _ _ _ _) as [[b msg]|]; [|discriminate].
      destruct b; simpl; [|intros [= <- <-]; auto].
      destruct (sqlite_bind_int i) as [j|x]; [|discriminate].
      intros [= <- <-]. right; right; left; eauto 9.
  - unfold eliminar. destruct (sqlite_bind_int i) as [j|x]; cbn [bind];
      [|discriminate].
    intros [= <- <-]. right; right; right. eauto.
  - unfold exportar_pdf, bind. destruct (mapM _ _); [|discriminate].
    destruct rl; intros [= <- <-]; auto.
Qed.

Lemma serve_effect (rl : bool) (rq : request) (db : database) :
  serve rl db rq = db
  \/ (exists f e a h d, serve rl db rq = sql_insert f e a h d db)
  \/ (exists i f e a h d, serve rl db rq = sql_update i f e a h d db)
  \/ (exists i, serve rl db rq = sql_delete i db).
Proof.
  unfold serve. destruct (handle rl rq db) as [[r db']|x] eqn:E; [|auto].
  eapply handle_effect. exact E.
Qed.

Lemma wf_serve (rl : bool) (rq : request) (db : database) :
  wf_db db -> wf_db (serve rl db rq).
Proof.
  intros W.
  destruct (serve_effect rl rq db)
    as [-> | [(f & e & a & h & d & ->) | [(i & f & e & a & h & d & ->) | (i & ->)]]].
  - exact W.
  - apply wf_sql_insert, W.
  - apply wf_sql_update, W.
  - apply wf_sql_delete, W.
Qed.

Lemma serve_sequence_mono (rl : bool) (rq : request) (db : database) :
  sqlite_sequence db <= sqlite_sequence (serve rl db rq).
Proof.
  destruct (serve_effect rl rq db)
    as [-> | [(f & e & a & h & d & ->) | [(i & f & e & a & h & d & ->) | (i & ->)]]];
    simpl; lia.
Qed.

Lemma wf_serve_all (rl : bool) (rqs : list request) : forall db,
  wf_db db -> wf_db (serve_all rl rqs db).
Proof.
  unfold serve_all. induction rqs as [|rq rqs IH]; simpl; intros db W; [exact W|].
  apply IH, wf_serve, W.
Qed.

Lemma serve_all_sequence_mono (rl : bool) (rqs : list request) : forall db,
  sqlite_sequence db <= sqlite_sequence (serve_all rl rqs db).
Proof.
  unfold serve_all. induction rqs as [|rq rqs IH]; simpl; intros db; [lia|].
  pose proof (serve_sequence_mono rl rq db). specialize (IH (serve rl db rq)). lia.
Qed.

(** No rowid of an earlier state of the database exceeds the mark of a
    later one. *)
Lemma earlier_ids_bounded (rl : bool) (rqs : list request) (k : nat) (r : examen) :
  In r (examenes (serve_all rl (firstn k rqs) empty_db)) ->
  id r <= sqlite_sequence (serve_all rl rqs empty_db).
Proof.
  intros H.
  pose proof (wf_serve_all rl (firstn k rqs) empty_db wf_empty) as [_ B].
  rewrite Forall_forall in B. specialize (B r H).
  rewrite <- (firstn_skipn k rqs) at 1. unfold serve_all in *.
  rewrite fold_left_app.
  pose proof (serve_all_sequence_mono rl (skipn k rqs)
                (fold_left (serve rl) (firstn k rqs) empty_db)) as M.
  unfold serve_all in M. lia.
Qed.

(** ** The routes *)

Lemma max_rowid_nonneg (l : list examen) : 0 <= max_rowid l.
Proof. induction l as [|x l IH]; simpl; lia. Qed.

Lemma serve_ids_positive (rl : bool) (rq : request) (db : database) :
  Forall (fun r => 1 <= id r) (examenes db) ->
  Forall (fun r => 1 <= id r) (examenes (serve rl db rq)).
Proof.
  intros F.
  destruct (serve_effect rl rq db)
    as [-> | [(f & e & a & h & d & ->) | [(i & f & e & a & h & d & ->) | (i & ->)]]].
  - exact F.
  - cbn [sql_insert examenes]. apply Forall_app. split; [exact F|].
    constructor; [|constructor]. cbn [id].
    pose proof (max_rowid_nonneg (examenes db)). lia.
  - cbn [sql_update examenes]. apply Forall_map.
    eapply Forall_impl; [|exact F]. intros x Hx.
    destruct (id x =? i); exact Hx.
  - cbn [sql_delete examenes]. apply Forall_forall. intros x Hx.
    apply filter_In in Hx. rewrite Forall_forall in F. apply F. tauto.
Qed.

Lemma serve_all_ids_positive (rl : bool) (rqs : list request) : forall db,
  Forall (fun r => 1 <= id r) (examenes db) ->
  Forall (fun r => 1 <= id r) (examenes (serve_all rl rqs db)).
Proof.
  unfold serve_all. induction rqs as [|rq rqs IH]; simpl; intros db F;
    [exact F|].
  apply IH, serve_ids_positive, F.
Qed.

Lemma max_rowid_le (l : list examen) (s : Z) :
  0 <= s -> Forall (fun r => id r <= s) l -> max_rowid l <= s.
Proof.
  intros Hs. induction 1 as [|x l Hx F IH]; simpl; lia.
Qed.

(** On a store reached from the empty one every rowid lies between 1 and the
    AUTOINCREMENT mark, and the next insertion takes the mark plus one. *)
Lemma reachable_ids_range (rl : bool) (history : list request) (i : Z) :
  let db := serve_all rl history empty_db in
  In i (map id (examenes db)) -> 1 <= i <= sqlite_sequence db.
Proof.
  intros db Hi. apply in_map_iff in Hi. destruct Hi as (r & <- & Hr).
  destruct (wf_serve_all rl history empty_db wf_empty) as [_ B].
  pose proof (serve_all_ids_positive rl history empty_db (Forall_nil _)) as P.
  rewrite Forall_forall in B, P. specialize (B r Hr). specialize (P r Hr).
  fold db in B. lia.
Qed.

Lemma reachable_next_rowid (rl : bool) (history : list request)
    (f e a h d : pystr) :
  let db := serve_all rl history empty_db in
  0 <= sqlite_sequence db
  /\ sqlite_sequence (sql_insert f e a h d db) = sqlite_sequence db + 1.
Proof.
  intros db.
  destruct (wf_serve_all rl history empty_db wf_empty) as [_ B]. fold db in B.
  pose proof (serve_all_sequence_mono rl history empty_db) as M. fold db in M.
  cbn [empty_db sqlite_sequence] in M. split; [exact M|].
  cbn [sql_insert sqlite_sequence].
  pose proof (max_rowid_le (examenes db) (sqlite_sequence db) M B).
  pose proof (max_rowid_nonneg (examenes db)). lia.
Qed.

Lemma mapM_total {A B} (f : A -> result B) (l : list A) :
  (forall x, In x l -> exists y, f x = Ok y) ->
  exists ys, mapM f l = Ok ys /\ Forall2 (fun x y => f x = Ok y) l ys.
Proof.
  induction l as [|x l IH]; intros H.
  - exists []. split; [reflexivity | constructor].
  - destruct (H x (or_introl eq_refl)) as [y Hy].
    destruct IH as (ys & E & F); [intros z Hz; apply H; right; exact Hz|].
    exists (y :: ys). split; [simpl; rewrite Hy; simpl; rewrite E; reflexivity|].
    constructor; assumption.
Qed.

(** A record that passes validation has no empty field. *)
Lemma valid_nonempty (f e a h d : pystr) :
  validar_datos_examen f e a h d = Ok (true, py "") ->
  f <> [] /\ e <> [] /\ a <> [] /\ h <> [] /\ d <> [].
Proof.
  intros V. apply validar_accepts_iff in V.
  destruct V as ([dt P] & He & Ha & Hh & Hd).
  repeat split; intros ->.
  - vm_compute in P. discriminate P.
  - vm_compute in He. repeat (destruct He as [He | He]; [discriminate|]). exact He.
  - vm_compute in Ha. repeat (destruct Ha as [Ha | Ha]; [discriminate|]). exact Ha.
  - apply Hh. reflexivity.
  - apply Hd. reflexivity.
Qed.

Lemma truthy_Some (s : pystr) : s <> [] -> truthy (Some s) = true.
Proof. destruct s; [congruence | reflexivity]. Qed.

Lemma agregar_post_valid (f e a h d : pystr) (db : database) :
  validar_datos_examen f e a h d = Ok (true, py "") ->
  agregar POST (form_of f e a h d) db
  = Ok (redirect_index, sql_insert f e a h d db).
Proof.
  intros V. destruct (valid_nonempty f e a h d V) as (Hf & He & Ha & Hh & Hd).
  unfold agregar, form_of.
  cbn [form_fecha form_espacio_curricular form_anio form_horario form_docente].
  rewrite !truthy_Some by assumption. rewrite V. reflexivity.
Qed.

Lemma editar_post_valid (i : Z) (f e a h d : pystr) (db : database) :
  validar_datos_examen f e a h d = Ok (true, py "") ->
  sqlite_integer i ->
  editar i POST (form_of f e a h d) db
  = Ok (redirect_index, sql_update i f e a h d db).
Proof.
  intros V R. destruct (valid_nonempty f e a h d V) as (Hf & He & Ha & Hh & Hd).
  unfold editar, form_of.
  cbn [form_fecha form_espacio_curricular form_anio form_horario form_docente].
  rewrite !truthy_Some by assumption.
  rewrite V, (sqlite_bind_int_ok i R). reflexivity.
Qed.

(** With a valid form and an id that does not fit 64 bits the UPDATE is
    never run: binding the id raises. *)
Lemma editar_post_overflow (i : Z) (f e a h d : pystr) (db : database) :
  validar_datos_examen f e a h d = Ok (true, py "") ->
  ~ sqlite_integer i ->
  editar i POST (form_of f e a h d) db = Raise OverflowError.
Proof.
  intros V R. destruct (valid_nonempty f e a h d V) as (Hf & He & Ha & Hh & Hd).
  unfold editar, form_of.
  cbn [form_fecha form_espacio_curricular form_anio form_horario form_docente].
  rewrite !truthy_Some by assumption.
  rewrite V, (sqlite_bind_int_overflow i R). reflexivity.
Qed.

Lemma find_snoc_fresh (l : list examen) (r : examen) :
  Forall (fun x => id x < id r) l ->
  find (fun x => id x =? id r) (l ++ [r]) = Some r.
Proof.
  induction l as [|x l IH]; simpl; intros F.
  - rewrite Z.eqb_refl. reflexivity.
  - inversion F as [|? ? Hx Fl]; subst.
    replace (id x =? id r) with false by (symmetry; apply Z.eqb_neq; lia).
    apply IH. exact Fl.
Qed.

Lemma select_after_insert (f e a h d : pystr) (db : database) :
  let db' := sql_insert f e a h d db in
  let i := sqlite_sequence db' in
  sql_select_by_id i db' = Some (mk_examen i f e a h d)
  /\ In (mk_examen i f e a h d) (sql_select_all db').
Proof.
  destruct (sql_insert_fresh f e a h d db) as (E & _ & F).
  cbv zeta. split.
  - unfold sql_select_by_id. rewrite E.
    apply (find_snoc_fresh (examenes db)
             (mk_examen (sqlite_sequence (sql_insert f e a h d db)) f e a h d)).
    exact F.
  - unfold sql_select_all. eapply Permutation_in; [apply order_by_fecha_perm|].
    rewrite E. apply in_or_app. right. left. reflexivity.
Qed.

Lemma select_after_update (i : Z) (f e a h d : pystr) (db : database) :
  In i (map id (examenes db)) ->
  sql_select_by_id i (sql_update i f e a h d db) = Some (mk_examen i f e a h d).
Proof.
  unfold sql_select_by_id, sql_update. cbn [examenes].
  induction (examenes db) as [|x l IH]; simpl; [tauto|].
  destruct (id x =? i) eqn:E.
  - intros _. cbn [id]. rewrite E. apply Z.eqb_eq in E. rewrite E. reflexivity.
  - intros [H | H]; [apply Z.eqb_neq in E; contradiction|].
    rewrite E. apply IH. exact H.
Qed.

Lemma select_after_delete (i : Z) (db : database) :
  sql_select_by_id i (sql_delete i db) = None.
Proof.
  unfold sql_select_by_id, sql_delete. cbn [examenes].
  induction (examenes db) as [|x l IH]; simpl; [reflexivity|].
  destruct (id x =? i) eqn:E; simpl; [exact IH | rewrite E; exact IH].
Qed.

(** An update that names a rowid not in the table changes no row. *)
Lemma sql_update_missing (i : Z) (f e a h d : pystr) (db : database) :
  sql_select_by_id i db = None -> sql_update i f e a h d db = db.
Proof.
  unfold sql_select_by_id, sql_update. destruct db as [rows s]. cbn [examenes sqlite_sequence].
  intros H. f_equal.
  induction rows as [|x l IH]; simpl in *; [reflexivity|].
  destruct (id x =? i); [discriminate|]. rewrite IH by assumption. reflexivity.
Qed.

(** The listing route: the rows of the query, each with its date rewritten. *)
Lemma index_listing (db : database) :
  exists rows,
    index db = Ok (render_index rows, db)
    /\ Forall2 (fun r r' =>
                  formatear_fecha (fecha r) = Ok (fecha r')
                  /\ id r' = id r
                  /\ espacio_curricular r' = espacio_curricular r
                  /\ anio r' = anio r /\ horario r' = horario r
                  /\ docente r' = docente r)
               (sql_select_all db) rows.
Proof.
  unfold index.
  match goal with |- context [mapM ?f ?l] =>
    destruct (mapM_total f l) as (rows & E & F)
  end.
  - intros r _. destruct (formatear_fecha_returns (fecha r)) as [s Hs].
    rewrite Hs. simpl. eauto.
  - exists rows. rewrite E. split; [reflexivity|].
    eapply Forall2_impl; [|exact F]. intros r r' H. cbv beta in H.
    destruct (formatear_fecha (fecha r)) as [s|] eqn:Hs; [|discriminate].
    simpl in H. injection H as <-. simpl. repeat split; reflexivity.
Qed.

(** The export route, on either renderer. *)
Lemma exportar_pdf_rows (fecha_exportacion : pystr) (db : database) :
  exists rows,
    Forall2 (fun r row =>
               exists c, formatear_fecha_compacta (fecha r) = Ok c
                         /\ row = [c; espacio_curricular r; anio r; horario r;
                                   docente r])
            (sql_select_all db) rows
    /\ exportar_pdf true fecha_exportacion db
       = Ok (send_pdf
               (mk_pdf (py "Cronograma de Exámenes") (csv_header :: rows)
                  [90; 150; 50; 70; 90]
                  (py "<i>Exportado el " ++ fecha_exportacion
                   ++ py " - Total de exámenes: "
                   ++ py_str_nat (List.length rows) ++ py "</i>"))
               (py "cronograma_examenes.pdf"), db)
    /\ exportar_pdf false fecha_exportacion db
       = Ok (send_csv (List.concat (map csv_writerow (csv_header :: rows)))
               (py "cronograma_examenes.csv") (py "text/csv"), db).
Proof.
  unfold exportar_pdf, sql_select_campos, sql_select_all.
  induction (order_by_fecha (examenes db)) as [|r l IH].
  - exists []. split; [constructor | split; reflexivity].
  - destruct IH as (rows & F & _ & _).
    destruct (formatear_fecha_compacta_returns (fecha r)) as [c Hc].
    exists ([c; espacio_curricular r; anio r; horario r; docente r] :: rows).
    assert (E : mapM (fun ex_lista =>
                 match ex_lista with
                 | f :: rest => f' <- formatear_fecha_compacta f ;; Ok (f' :: rest)
                 | [] => Raise IndexError
                 end)
              (map (fun r => [fecha r; espacio_curricular r; anio r; horario r;
                              docente r]) l) = Ok rows).
    { clear Hc. induction F as [|x row l' rows' (c' & Hc' & ->) F' IH'];
        [reflexivity|].
      simpl. rewrite Hc'. simpl. rewrite IH'. reflexivity. }
    split; [constructor; [eauto | exact F]|].
    cbn [map mapM]. rewrite Hc. cbn [bind]. rewrite E. cbn [bind].
    split; reflexivity.
Qed.

(** ** Text order and calendar order *)

(** Numbers written with the same width compare as texts the way they
    compare as numbers. *)
Lemma zero_padded_compare (w : nat) : forall a b s t,
  0 <= a < 10 ^ Z.of_nat w -> 0 <= b < 10 ^ Z.of_nat w ->
  pystr_compare (datetime.zero_padded w a ++ s) (datetime.zero_padded w b ++ t)
  = match a ?= b with
    | Eq => pystr_compare s t
    | c => c
    end.
Proof.
  induction w as [|w IH]; intros a b s t Ha Hb.
  - simpl in Ha, Hb. assert (a = 0) by lia. assert (b = 0) by lia. subst.
    reflexivity.
  - rewrite Nat2Z.inj_succ, Z.pow_succ_r in Ha, Hb by lia.
    cbn [datetime.zero_padded]. rewrite <- !app_assoc.
    rewrite IH
      by (split; [apply Z.div_pos; lia | apply Z.div_lt_upper_bound; lia]).
    cbn [app pystr_compare].
    pose proof (Z.div_mod a 10). pose proof (Z.div_mod b 10).
    pose proof (Z.mod_pos_bound a 10). pose proof (Z.mod_pos_bound b 10).
    destruct (Z.compare_spec (a / 10) (b / 10));
      destruct (Z.compare_spec (48 + a mod 10) (48 + b mod 10));
      destruct (Z.compare_spec a b); try reflexivity; lia.
Qed.

Lemma isoformat_compare (y m d y' m' d' : Z) :
  valid_date y m d -> valid_date y' m' d' ->
  pystr_compare (isoformat y m d) (isoformat y' m' d')
  = match y ?= y' with
    | Eq => match m ?= m' with
            | Eq => d ?= d'
            | c => c
            end
    | c => c
    end.
Proof.
  intros V V'.
  assert (B : forall y m d, valid_date y m d -> 1 <= d <= 31).
  { clear. intros y m d (_ & Hm & Hd). split; [lia|].
    unfold datetime._days_in_month in Hd.
    destruct ((m =? 2) && datetime._is_leap y); [lia|].
    assert (Hc : m = 1 \/ m = 2 \/ m = 3 \/ m = 4 \/ m = 5 \/ m = 6 \/ m = 7
                 \/ m = 8 \/ m = 9 \/ m = 10 \/ m = 11 \/ m = 12) by lia.
    repeat (destruct Hc as [-> | Hc]; [simpl in Hd; lia|]). subst m. simpl in Hd. lia. }
  pose proof (B y m d V). pose proof (B y' m' d' V').
  destruct V as (Hy & Hm & _). destruct V' as (Hy' & Hm' & _).
  unfold isoformat.
  rewrite zero_padded_compare by (simpl; lia).
  destruct (y ?= y'); try reflexivity.
  cbn [app pystr_compare]. rewrite Z.compare_refl.
  rewrite zero_padded_compare by (simpl; lia).
  destruct (m ?= m'); try reflexivity.
  cbn [app pystr_compare]. rewrite Z.compare_refl.
  rewrite <- (app_nil_r (datetime.zero_padded 2 d)).
  rewrite <- (app_nil_r (datetime.zero_padded 2 d')).
  rewrite zero_padded_compare by (simpl; lia).
  destruct (d ?= d'); reflexivity.
Qed.

Lemma days_before_year_mono (y y' : Z) :
  y <= y' -> datetime._days_before_year y <= datetime._days_before_year y'.
Proof.
  unfold datetime._days_before_year. intros H.
  Z.to_euclidean_division_equations. lia.
Qed.

Lemma ymd2ord_within_year (y m d : Z) :
  1 <= m <= 12 -> 1 <= d <= datetime._days_in_month y m ->
  datetime._days_before_year y < datetime._ymd2ord y m d
  <= datetime._days_before_year (y + 1).
Proof.
  intros Hm Hd. rewrite days_before_year_succ.
  unfold datetime._ymd2ord, datetime._days_before_month.
  unfold datetime._days_in_month in Hd.
  assert (Hc : m = 1 \/ m = 2 \/ m = 3 \/ m = 4 \/ m = 5 \/ m = 6 \/ m = 7
               \/ m = 8 \/ m = 9 \/ m = 10 \/ m = 11 \/ m = 12) by lia.
  destruct (datetime._is_leap y);
    repeat (destruct Hc as [-> | Hc]; [simpl in *; lia|]);
    subst m; simpl in *; lia.
Qed.

Lemma ymd2ord_months (y m d m' d' : Z) :
  1 <= m -> m < m' -> m' <= 12 ->
  d <= datetime._days_in_month y m -> 1 <= d' ->
  datetime._ymd2ord y m d < datetime._ymd2ord y m' d'.
Proof.
  intros H1 H2 H3 Hd Hd'.
  unfold datetime._ymd2ord, datetime._days_before_month.
  unfold datetime._days_in_month in Hd.
  assert (Hc : m = 1 \/ m = 2 \/ m = 3 \/ m = 4 \/ m = 5 \/ m = 6 \/ m = 7
               \/ m = 8 \/ m = 9 \/ m = 10 \/ m = 11) by lia.
  assert (Hc' : m' = 2 \/ m' = 3 \/ m' = 4 \/ m' = 5 \/ m' = 6 \/ m' = 7
                \/ m' = 8 \/ m' = 9 \/ m' = 10 \/ m' = 11 \/ m' = 12) by lia.
  destruct (datetime._is_leap y);
    repeat (destruct Hc as [-> | Hc];
            [repeat (destruct Hc' as [-> | Hc']; [simpl in *; lia|]);
             subst m'; simpl in *; lia|]);
    subst m;
    repeat (destruct Hc' as [-> | Hc']; [simpl in *; lia|]);
    subst m'; simpl in *; lia.
Qed.

Lemma ymd2ord_lt (y m d y' m' d' : Z) :
  valid_date y m d -> valid_date y' m' d' ->
  y < y' \/ (y = y' /\ (m < m' \/ (m = m' /\ d < d'))) ->
  datetime._ymd2ord y m d < datetime._ymd2ord y' m' d'.
Proof.
  intros (_ & Hm & Hd) (_ & Hm' & Hd') [H | [-> [H | [-> H]]]].
  - pose proof (ymd2ord_within_year y m d Hm Hd).
    pose proof (ymd2ord_within_year y' m' d' Hm' Hd').
    pose proof (days_before_year_mono (y + 1) y'). lia.
  - apply ymd2ord_months; lia.
  - unfold datetime._ymd2ord. lia.
Qed.

(** The ordinal orders the dates of the calendar by year, month and day. *)
Lemma ymd2ord_compare (y m d y' m' d' : Z) :
  valid_date y m d -> valid_date y' m' d' ->
  (datetime._ymd2ord y m d ?= datetime._ymd2ord y' m' d')
  = match y ?= y' with
    | Eq => match m ?= m' with
            | Eq => d ?= d'
            | c => c
            end
    | c => c
    end.
Proof.
  intros V V'.
  destruct (Z.compare_spec y y') as [Ey | Ly | Ly].
  - destruct (Z.compare_spec m m') as [Em | Lm | Lm].
    + subst. unfold datetime._ymd2ord.
      destruct (Z.compare_spec d d') as [Ed | Ld | Ld].
      * subst. apply Z.compare_refl.
      * apply Z.compare_lt_iff. lia.
      * apply Z.compare_gt_iff. lia.
    + apply Z.compare_lt_iff. apply ymd2ord_lt; auto.
    + apply Z.compare_gt_iff. apply ymd2ord_lt; auto.
  - apply Z.compare_lt_iff. apply ymd2ord_lt; auto.
  - apply Z.compare_gt_iff. apply ymd2ord_lt; auto.
Qed.

(** On dates stored in ISO form the order of the texts is the order of the
    calendar. *)
Lemma isoformat_order_is_calendar_order (y m d y' m' d' : Z) :
  valid_date y m d -> valid_date y' m' d' ->
  pystr_compare (isoformat y m d) (isoformat y' m' d')
  = (datetime._ymd2ord y m d ?= datetime._ymd2ord y' m' d').
Proof.
  intros V V'. rewrite isoformat_compare, ymd2ord_compare by assumption.
  reflexivity.
Qed.

(** The validator also accepts a date whose month or day is not padded;
    such a date is stored as submitted and sorts as text. *)
Lemma non_padded_fecha_sorts_as_text :
  validar_datos_examen (py "2025-9-1") (py "Lengua") (py "2° año") (py "14:00")
    (py "GOMEZ, CARLOS") = Ok (true, py "")
  /\ strptime (py "2025-9-1") = Ok (datetime.mk 2025 9 1)
  /\ pystr_compare (py "2025-10-01") (py "2025-9-1") = Lt.
Proof. repeat split; vm_compute; reflexivity. Qed.

(** ** Claims on the store *)

(** C3: the listing query returns the stored rows in ascending order of the
    date column, and rows with equal dates in the order of their insertion
    (on a store reached from the empty one their rowids ascend); between
    dates stored in ISO form the order of the column is the order of the
    calendar; after inserting records dated 2025-08-23, 2025-08-22,
    2025-08-22, in that order, into an empty store, the two records of
    2025-08-22 come first, in their insertion order, and the record of
    2025-08-23 last. *)
Theorem listing_ordered_by_fecha :
  (forall db,
     StronglySorted fecha_le (sql_select_all db)
     /\ Permutation (examenes db) (sql_select_all db)
     /\ (forall k, con_fecha k (sql_select_all db) = con_fecha k (examenes db))
     /\ sql_select_campos db = map campos (sql_select_all db))
  /\ (forall rl history k,
        StronglySorted Z.lt
          (map id (con_fecha k (sql_select_all (serve_all rl history empty_db)))))
  /\ (forall r r' dt dt',
        strptime (fecha r) = Ok dt -> strptime (fecha r') = Ok dt' ->
        fecha r = isoformat (datetime.year dt) (datetime.month dt) (datetime.day dt) ->
        fecha r' = isoformat (datetime.year dt') (datetime.month dt') (datetime.day dt') ->
        (fecha_le r r' <-> datetime.toordinal dt <= datetime.toordinal dt'))
  /\ (forall rl,
        sql_select_all
          (serve_all rl
             [req_agregar POST
                (form_of (py "2025-08-23") (py "Lengua") (py "2° año")
                   (py "14:00") (py "GOMEZ, CARLOS"));
              req_agregar POST
                (form_of (py "2025-08-22") (py "Matemática") (py "1° año")
                   (py "09:30") (py "DIAZ, PAMELA"));
              req_agregar POST
                (form_of (py "2025-08-22") (py "Historia") (py "3° año")
                   (py "11:00") (py "PEREZ, ANA"))]
             empty_db)
        = [mk_examen 2 (py "2025-08-22") (py "Matemática") (py "1° año")
             (py "09:30") (py "DIAZ, PAMELA");
           mk_examen 3 (py "2025-08-22") (py "Historia") (py "3° año")
             (py "11:00") (py "PEREZ, ANA");
           mk_examen 1 (py "2025-08-23") (py "Lengua") (py "2° año")
             (py "14:00") (py "GOMEZ, CARLOS")]).
Proof.
  split; [|split; [|split]].
  - intros db. unfold sql_select_all, sql_select_campos.
    split; [apply order_by_fecha_sorted|].
    split; [apply order_by_fecha_perm|].
    split; [intros k; apply order_by_fecha_stable | reflexivity].
  - intros rl history k. unfold sql_select_all.
    rewrite order_by_fecha_stable. unfold con_fecha.
    apply StronglySorted_lt_filter.
    apply (wf_serve_all rl history empty_db wf_empty).
  - intros r r' dt dt' P P' E E'.
    apply strptime_valid_date in P, P'.
    unfold fecha_le, datetime.toordinal. rewrite E, E'.
    rewrite isoformat_order_is_calendar_order by (unfold valid_date; tauto).
    rewrite <- Z.compare_le_iff. reflexivity.
  - intros rl. vm_compute. reflexivity.
Qed.

Lemma listing_ordered_by_fecha_witness :
  fecha_le
    (mk_examen 2 (py "2025-08-22") (py "Matemática") (py "1° año") (py "09:30")
       (py "DIAZ, PAMELA"))
    (mk_examen 1 (py "2025-08-23") (py "Lengua") (py "2° año") (py "14:00")
       (py "GOMEZ, CARLOS"))
  <-> datetime.toordinal (datetime.mk 2025 8 22)
      <= datetime.toordinal (datetime.mk 2025 8 23).
Proof.
  apply (proj1 (proj2 (proj2 listing_ordered_by_fecha))
           (mk_examen 2 (py "2025-08-22") (py "Matemática") (py "1° año")
              (py "09:30") (py "DIAZ, PAMELA"))
           (mk_examen 1 (py "2025-08-23") (py "Lengua") (py "2° año")
              (py "14:00") (py "GOMEZ, CARLOS"))
           (datetime.mk 2025 8 22) (datetime.mk 2025 8 23));
    vm_compute; reflexivity.
Defined.

(** C4: on a store that still has a rowid to give, a valid record that is
    inserted appears in the listing with the five fields as submitted and
    with a rowid that no earlier state of the store has held; after an
    update of an existing rowid with a valid record, reading that rowid
    gives the new fields under the same rowid; after a delete of a rowid
    that fits 64 bits, reading the rowid reports that the exam was not
    found. *)
Theorem store_round_trip (rl : bool) (history : list request)
    (f e a h d : pystr) :
  validar_datos_examen f e a h d = Ok (true, py "") ->
  let db := serve_all rl history empty_db in
  sqlite_sequence db < 2 ^ 63 - 1 ->
  (exists i db',
     agregar POST (form_of f e a h d) db = Ok (redirect_index, db')
     /\ In (mk_examen i f e a h d) (sql_select_all db')
     /\ (forall fm, editar i GET fm db'
         = Ok (render_editar (mk_examen i f e a h d) ESPACIOS_CURRICULARES, db'))
     /\ (forall k,
           ~ In i (map id (examenes (serve_all rl (firstn k history) empty_db)))))
  /\ (forall i, In i (map id (examenes db)) ->
        exists db',
          editar i POST (form_of f e a h d) db = Ok (redirect_index, db')
          /\ (forall fm, editar i GET fm db'
              = Ok (render_editar (mk_examen i f e a h d) ESPACIOS_CURRICULARES,
                    db')))
  /\ (forall i, sqlite_integer i ->
        exists db',
          eliminar i db = Ok (redirect_index, db')
          /\ (forall fm, editar i GET fm db'
              = Ok (render_error (py "Examen no encontrado") 404, db'))).
Proof.
  intros V db Hroom. split; [|split].
  - exists (sqlite_sequence (sql_insert f e a h d db)), (sql_insert f e a h d db).
    destruct (select_after_insert f e a h d db) as [S L].
    destruct (reachable_next_rowid rl history f e a h d) as [H0 Hn].
    fold db in H0, Hn.
    assert (R : sqlite_integer (sqlite_sequence (sql_insert f e a h d db)))
      by (rewrite Hn; unfold sqlite_integer; lia).
    split; [apply agregar_post_valid; exact V|].
    split; [exact L|].
    split.
    { intros fm. unfold editar. rewrite (sqlite_bind_int_ok _ R). cbn [bind].
      rewrite S. reflexivity. }
    intros k Hin. apply in_map_iff in Hin. destruct Hin as (r & Hr & Hin).
    apply (earlier_ids_bounded rl history k r) in Hin.
    destruct (sql_insert_fresh f e a h d db) as (_ & Hs & _).
    fold db in Hin. lia.
  - intros i Hi. exists (sql_update i f e a h d db).
    pose proof (reachable_ids_range rl history i Hi) as Hr. fold db in Hr.
    assert (R : sqlite_integer i) by (unfold sqlite_integer; lia).
    split; [apply editar_post_valid; assumption|].
    intros fm. unfold editar. rewrite (sqlite_bind_int_ok i R). cbn [bind].
    rewrite select_after_update by exact Hi. reflexivity.
  - intros i R. exists (sql_delete i db).
    split; [unfold eliminar; rewrite (sqlite_bind_int_ok i R); reflexivity|].
    intros fm. unfold editar. rewrite (sqlite_bind_int_ok i R). cbn [bind].
    rewrite select_after_delete. reflexivity.
Qed.

Lemma store_round_trip_witness :
  exists i db',
    agregar POST
      (form_of (py "2025-08-22") (py "Matemática") (py "1° año") (py "09:30")
         (py "DIAZ, PAMELA"))
      (serve_all false [req_eliminar 1] empty_db)
    = Ok (redirect_index, db')
    /\ In (mk_examen i (py "2025-08-22") (py "Matemática") (py "1° año")
             (py "09:30") (py "DIAZ, PAMELA"))
          (sql_select_all db').
Proof.
  destruct (store_round_trip false [req_eliminar 1]
              (py "2025-08-22") (py "Matemática") (py "1° año") (py "09:30")
              (py "DIAZ, PAMELA"))
    as ((i & db' & H1 & H2 & _) & _).
  - vm_compute. reflexivity.
  - vm_compute. reflexivity.
  - exists i, db'. split; assumption.
Defined.

(** C5, evaluated on the code: an update posted for rowid 7 on the empty
    store, with a valid record, is answered with the redirect that follows
    a successful update and leaves the store as it was; the same rowid
    requested with GET is answered with "Examen no encontrado". *)
Theorem editar_post_missing_id :
  let fm := form_of (py "2025-08-23") (py "Lengua") (py "2° año") (py "14:00")
              (py "GOMEZ, CARLOS") in
  sql_select_by_id 7 empty_db = None
  /\ editar 7 POST fm empty_db = Ok (redirect_index, empty_db)
  /\ editar 7 GET fm empty_db
     = Ok (render_error (py "Examen no encontrado") 404, empty_db).
Proof. cbv zeta. repeat split. Qed.

(** On every store, a valid update posted for a rowid that fits 64 bits and
    is not in the table gets the same answer as a successful one and changes
    nothing. *)
Lemma editar_post_not_found_unreported (i : Z) (f e a h d : pystr)
    (db : database) :
  validar_datos_examen f e a h d = Ok (true, py "") ->
  sqlite_integer i ->
  sql_select_by_id i db = None ->
  editar i POST (form_of f e a h d) db = Ok (redirect_index, db).
Proof.
  intros V R N. rewrite (editar_post_valid i f e a h d db V R).
  rewrite (sql_update_missing i f e a h d db N). reflexivity.
Qed.

(** ** Claims on the export and on what is stored *)

(** C6, as the code has it: from an empty store, after the record of
    2025-09-12 is inserted, the listing shows VIERNES 12/09/2025 and the
    fallback export is a CSV of two lines: the header
    Fecha,Espacio Curricular,Año,Horario,Docente, with no space after the
    commas, and the row, whose last field is written between double quotes
    because it holds a comma. *)
Theorem export_fallback_end_to_end (rl : bool) (fecha_exportacion : pystr) :
  let db :=
    serve_all rl
      [req_agregar POST
         (form_of (py "2025-09-12") (py "Matemática") (py "1° año")
            (py "09:00 - 11:00") (py "DIAZ, PAMELA"))]
      empty_db in
  index db
  = Ok (render_index
          [mk_examen 1 (py "VIERNES 12/09/2025") (py "Matemática") (py "1° año")
             (py "09:00 - 11:00") (py "DIAZ, PAMELA")], db)
  /\ exists contents,
       exportar_pdf false fecha_exportacion db
       = Ok (send_csv contents (py "cronograma_examenes.csv") (py "text/csv"), db)
       /\ lines_crlf [] contents
          = [py "Fecha,Espacio Curricular,Año,Horario,Docente";
             py "VIE 12/09/2025,Matemática,1° año,09:00 - 11:00,"
             ++ [34] ++ py "DIAZ, PAMELA" ++ [34]].
Proof.
  cbv zeta. split; [vm_compute; reflexivity|].
  eexists. split; vm_compute; reflexivity.
Qed.

(** C6 as stated fails: the second line of the fallback export is not the
    row with the teacher written bare. *)
Lemma export_fallback_second_line_unquoted_fails :
  ~ (exists fecha_exportacion contents download_name mimetype db',
       exportar_pdf false fecha_exportacion
         (serve_all false
            [req_agregar POST
               (form_of (py "2025-09-12") (py "Matemática") (py "1° año")
                  (py "09:00 - 11:00") (py "DIAZ, PAMELA"))]
            empty_db)
       = Ok (send_csv contents download_name mimetype, db')
       /\ nth_error (lines_crlf [] contents) 1
          = Some (py "VIE 12/09/2025,Matemática,1° año,09:00 - 11:00,DIAZ, PAMELA")).
Proof.
  intros (t & contents & name & mime & db' & H & L).
  vm_compute in H. injection H as <- _ _ _.
  vm_compute in L. discriminate L.
Qed.

(** C9: on every store both renderers are handed the header and then one
    row per record of the listing query, in the order of that query (which is
    ascending by date); each row holds the compact date, the subject, the
    year, the time slot and the teacher, in this order. *)
Theorem exportar_pdf_columns_and_order (fecha_exportacion : pystr)
    (db : database) :
  exists rows,
    Forall2 (fun r row =>
               exists c, formatear_fecha_compacta (fecha r) = Ok c
                         /\ row = [c; espacio_curricular r; anio r; horario r;
                                   docente r])
            (sql_select_all db) rows
    /\ StronglySorted fecha_le (sql_select_all db)
    /\ (exists doc,
          exportar_pdf true fecha_exportacion db
          = Ok (send_pdf doc (py "cronograma_examenes.pdf"), db)
          /\ pdf_data doc
             = [py "Fecha"; py "Espacio Curricular"; py "Año"; py "Horario";
                py "Docente"] :: rows)
    /\ exportar_pdf false fecha_exportacion db
       = Ok (send_csv
               (List.concat
                  (map csv_writerow
                     ([py "Fecha"; py "Espacio Curricular"; py "Año";
                       py "Horario"; py "Docente"] :: rows)))
               (py "cronograma_examenes.csv") (py "text/csv"), db).
Proof.
  destruct (exportar_pdf_rows fecha_exportacion db) as (rows & F & Hp & Hc).
  exists rows. split; [exact F|].
  split; [apply order_by_fecha_sorted|].
  split; [|exact Hc].
  eexists. split; [exact Hp | reflexivity].
Qed.

Lemma forallb_is_space_strip (wl s wr : pystr) :
  forallb is_space wl = true -> forallb is_space wr = true ->
  strip s <> [] -> strip (wl ++ s ++ wr) <> [].
Proof.
  intros Hl Hr N E. apply N. apply strip_nil. apply strip_nil in E.
  rewrite !forallb_app in E. apply andb_true_iff in E. destruct E as [_ E].
  apply andb_true_iff in E. tauto.
Qed.

(** Whitespace around the time slot and the teacher does not change the
    verdict of the validator. *)
Lemma validar_padding (f e a h d wl wr wl' wr' : pystr) :
  forallb is_space wl = true -> forallb is_space wr = true ->
  forallb is_space wl' = true -> forallb is_space wr' = true ->
  validar_datos_examen f e a h d = Ok (true, py "") ->
  validar_datos_examen f e a (wl ++ h ++ wr) (wl' ++ d ++ wr') = Ok (true, py "").
Proof.
  intros Hl Hr Hl' Hr' V. apply validar_accepts_iff in V.
  destruct V as (P & He & Ha & Hh & Hd).
  apply validar_accepts_iff.
  repeat split; try assumption; apply forallb_is_space_strip; assumption.
Qed.

(** C10: create and update store the five fields as submitted: a time slot
    or teacher with whitespace around its content passes validation and is
    read back, by the listing query and by rowid, with that whitespace (the
    update is that of a rowid of the table, which as an SQLite integer fits
    64 bits); the listing route rewrites the date of each row and nothing
    else. *)
Theorem campos_stored_verbatim :
  (forall db f e a h d wl wr wl' wr',
     forallb is_space wl = true -> forallb is_space wr = true ->
     forallb is_space wl' = true -> forallb is_space wr' = true ->
     validar_datos_examen f e a h d = Ok (true, py "") ->
     let h' := wl ++ h ++ wr in
     let d' := wl' ++ d ++ wr' in
     (exists i db',
        agregar POST (form_of f e a h' d') db = Ok (redirect_index, db')
        /\ sql_select_by_id i db' = Some (mk_examen i f e a h' d')
        /\ In (mk_examen i f e a h' d') (sql_select_all db'))
     /\ (forall i, In i (map id (examenes db)) -> sqlite_integer i ->
           exists db',
             editar i POST (form_of f e a h' d') db = Ok (redirect_index, db')
             /\ sql_select_by_id i db' = Some (mk_examen i f e a h' d')
             /\ In (mk_examen i f e a h' d') (sql_select_all db')))
  /\ (forall db,
        exists rows,
          index db = Ok (render_index rows, db)
          /\ Forall2 (fun r r' =>
                        formatear_fecha (fecha r) = Ok (fecha r')
                        /\ id r' = id r
                        /\ espacio_curricular r' = espacio_curricular r
                        /\ anio r' = anio r /\ horario r' = horario r
                        /\ docente r' = docente r)
                     (sql_select_all db) rows).
Proof.
  split; [|exact index_listing].
  intros db f e a h d wl wr wl' wr' Hl Hr Hl' Hr' V h' d'.
  pose proof (validar_padding f e a h d wl wr wl' wr' Hl Hr Hl' Hr' V) as V'.
  fold h' d' in V'. split.
  - exists (sqlite_sequence (sql_insert f e a h' d' db)), (sql_insert f e a h' d' db).
    destruct (select_after_insert f e a h' d' db) as [S L].
    split; [apply agregar_post_valid; exact V' | split; assumption].
  - intros i Hi R. exists (sql_update i f e a h' d' db).
    pose proof (select_after_update i f e a h' d' db Hi) as S.
    split; [apply editar_post_valid; assumption|].
    split; [exact S|].
    unfold sql_select_all. eapply Permutation_in; [apply order_by_fecha_perm|].
    unfold sql_select_by_id in S. apply find_some in S. tauto.
Qed.

Lemma campos_stored_verbatim_witness :
  exists i db',
    agregar POST
      (form_of (py "2025-09-12") (py "Matemática") (py "1° año")
         (py "  09:00 - 11:00 ") (py " DIAZ, PAMELA  "))
      empty_db
    = Ok (redirect_index, db')
    /\ sql_select_by_id i db'
       = Some (mk_examen i (py "2025-09-12") (py "Matemática") (py "1° año")
                 (py "  09:00 - 11:00 ") (py " DIAZ, PAMELA  "))
    /\ In (mk_examen i (py "2025-09-12") (py "Matemática") (py "1° año")
             (py "  09:00 - 11:00 ") (py " DIAZ, PAMELA  "))
          (sql_select_all db').
Proof.
  apply (proj1 (proj1 campos_stored_verbatim empty_db
                  (py "2025-09-12") (py "Matemática") (py "1° año")
                  (py "09:00 - 11:00") (py "DIAZ, PAMELA")
                  (py "  ") (py " ") (py " ") (py "  ")
                  eq_refl eq_refl eq_refl eq_refl
                  ltac:(vm_compute; reflexivity))).
Defined.

(** * Further properties of the routes *)

(** ** What a POST does *)

Lemma form_completo_false_cases (fm : form) :
  form_fecha fm = None \/ form_espacio_curricular fm = None
  \/ form_anio fm = None \/ form_horario fm = None \/ form_docente fm = None ->
  form_completo fm = false.
Proof.
  unfold form_completo.
  intros [-> | [-> | [-> | [-> | ->]]]]; cbn [truthy];
    rewrite ?andb_false_r; reflexivity.
Qed.

Lemma validar_true_msg (f e a h d msg : pystr) :
  validar_datos_examen f e a h d = Ok (true, msg) -> msg = py "".
Proof.
  rewrite validar_cascade. intros [= H].
  destruct (strptime f); [|discriminate H].
  repeat match type of H with
         | context [if ?b then _ else _] => destruct b
         end; try discriminate H.
  congruence.
Qed.

(** The three ways in which [POST /agregar] ends. *)
Lemma agregar_post_cases (fm : form) (db : database) :
  (form_completo fm = false /\ agregar POST fm db = Ok (faltan_datos, db))
  \/ (form_completo fm = true
      /\ exists motivo,
           validar_form fm = Ok (false, motivo)
           /\ agregar POST fm db = Ok (datos_invalidos motivo, db))
  \/ (form_completo fm = true
      /\ validar_form fm = Ok (true, py "")
      /\ agregar POST fm db
         = Ok (redirect_index,
               sql_insert (campo (form_fecha fm))
                 (campo (form_espacio_curricular fm)) (campo (form_anio fm))
                 (campo (form_horario fm)) (campo (form_docente fm)) db)).
Proof.
  unfold agregar, validar_form.
  destruct (form_fecha fm) as [f|] eqn:Ef;
    [|left; split; [apply form_completo_false_cases; tauto | reflexivity]].
  destruct (form_espacio_curricular fm) as [e|] eqn:Ee;
    [|left; split; [apply form_completo_false_cases; tauto | reflexivity]].
  destruct (form_anio fm) as [a|] eqn:Ea;
    [|left; split; [apply form_completo_false_cases; tauto | reflexivity]].
  destruct (form_horario fm) as [h|] eqn:Eh;
    [|left; split; [apply form_completo_false_cases; tauto | reflexivity]].
  destruct (form_docente fm) as [d|] eqn:Ed;
    [|left; split; [apply form_completo_false_cases; tauto | reflexivity]].
  assert (C : form_completo fm
              = truthy (Some f) && truthy (Some e) && truthy (Some a)
                && truthy (Some h) && truthy (Some d))
    by (unfold form_completo; rewrite Ef, Ee, Ea, Eh, Ed; reflexivity).
  rewrite <- C. cbn [campo].
  destruct (form_completo fm); cbn [negb]; [|left; split; reflexivity].
  right. pose proof (validar_cascade f e a h d) as V.
  destruct (validar_datos_examen f e a h d) as [[ok motivo]|x] eqn:E;
    [|discriminate V].
  cbn [bind]. destruct ok; cbn [negb].
  - right. split; [reflexivity|]. split; [|reflexivity].
    rewrite (validar_true_msg f e a h d motivo E). reflexivity.
  - left. split; [reflexivity|]. exists motivo. split; reflexivity.
Qed.

(** The four ways in which [POST /editar/<id>] ends. *)
Lemma editar_post_cases (i : Z) (fm : form) (db : database) :
  (form_completo fm = false /\ editar i POST fm db = Ok (faltan_datos, db))
  \/ (form_completo fm = true
      /\ exists motivo,
           validar_form fm = Ok (false, motivo)
           /\ editar i POST fm db = Ok (datos_invalidos motivo, db))
  \/ (form_completo fm = true
      /\ validar_form fm = Ok (true, py "")
      /\ sqlite_integer i
      /\ editar i POST fm db
         = Ok (redirect_index,
               sql_update i (campo (form_fecha fm))
                 (campo (form_espacio_curricular fm)) (campo (form_anio fm))
                 (campo (form_horario fm)) (campo (form_docente fm)) db))
  \/ (form_completo fm = true
      /\ validar_form fm = Ok (true, py "")
      /\ ~ sqlite_integer i
      /\ editar i POST fm db = Raise OverflowError).
Proof.
  unfold editar, validar_form.
  destruct (form_fecha fm) as [f|] eqn:Ef;
    [|left; split; [apply form_completo_false_cases; tauto | reflexivity]].
  destruct (form_espacio_curricular fm) as [e|] eqn:Ee;
    [|left; split; [apply form_completo_false_cases; tauto | reflexivity]].
  destruct (form_anio fm) as [a|] eqn:Ea;
    [|left; split; [apply form_completo_false_cases; tauto | reflexivity]].
  destruct (form_horario fm) as [h|] eqn:Eh;
    [|left; split; [apply form_completo_false_cases; tauto | reflexivity]].
  destruct (form_docente fm) as [d|] eqn:Ed;
    [|left; split; [apply form_completo_false_cases; tauto | reflexivity]].
  assert (C : form_completo fm
              = truthy (Some f) && truthy (Some e) && truthy (Some a)
                && truthy (Some h) && truthy (Some d))
    by (unfold form_completo; rewrite Ef, Ee, Ea, Eh, Ed; reflexivity).
  rewrite <- C. cbn [campo].
  destruct (form_completo fm); cbn [negb]; [|left; split; reflexivity].
  right. pose proof (validar_cascade f e a h d) as V.
  destruct (validar_datos_examen f e a h d) as [[ok motivo]|x] eqn:E;
    [|discriminate V].
  cbn [bind]. destruct ok; cbn [negb].
  - right. rewrite (validar_true_msg f e a h d motivo E).
    destruct (sqlite_bind_int_cases i) as [[R Eb] | [R Eb]]; rewrite Eb;
      [left | right]; (split; [reflexivity|]); (split; [reflexivity|]);
      (split; [exact R | reflexivity]).
  - left. split; [reflexivity|]. exists motivo. split; reflexivity.
Qed.

(** The reason given for a rejection is one of the five of the validator. *)
Lemma validar_form_motivos (fm : form) (motivo : pystr) :
  validar_form fm = Ok (false, motivo) ->
  In motivo [py "Fecha inválida"; py "Espacio curricular no válido";
             py "Año no válido"; py "Horario no puede estar vacío";
             py "Docente no puede estar vacío"].
Proof.
  unfold validar_form. rewrite validar_cascade.
  destruct (strptime _); [|intros [= <-]; left; reflexivity].
  destruct (negb (py_in _ ESPACIOS_CURRICULARES));
    [intros [= <-]; right; left; reflexivity|].
  destruct (negb (py_in _ anios_permitidos));
    [intros [= <-]; do 2 right; left; reflexivity|].
  destruct (py_not (strip (campo (form_horario fm))));
    [intros [= <-]; do 3 right; left; reflexivity|].
  destruct (py_not (strip (campo (form_docente fm))));
    [intros [= <-]; do 4 right; left; reflexivity | discriminate].
Qed.

(** X1: [POST /agregar] ends in one of three ways.  With a field missing or
    empty it answers 400 "Faltan datos" and the validator is not consulted;
    with all fields sent and a record the validator rejects it answers 400
    with the validator's reason after "Datos inválidos: "; in both cases the
    store is left as it was.  Otherwise it answers the redirect and the table
    is the old one followed by one row that holds the fields as sent, under a
    rowid above the old mark and above every rowid of the table. *)
Theorem agregar_post_outcome (fm : form) (db : database) :
  exists r db',
    agregar POST fm db = Ok (r, db')
    /\ ((form_completo fm = false
         /\ r = render_error
                  (py "Faltan datos. Por favor complete todos los campos.") 400
         /\ db' = db)
        \/ (form_completo fm = true
            /\ (exists motivo,
                  validar_form fm = Ok (false, motivo)
                  /\ In motivo
                       [py "Fecha inválida"; py "Espacio curricular no válido";
                        py "Año no válido"; py "Horario no puede estar vacío";
                        py "Docente no puede estar vacío"]
                  /\ r = render_error (py "Datos inválidos: " ++ motivo) 400)
            /\ db' = db)
        \/ (form_completo fm = true
            /\ validar_form fm = Ok (true, py "")
            /\ r = redirect_index
            /\ examenes db'
               = examenes db
                 ++ [mk_examen (sqlite_sequence db') (campo (form_fecha fm))
                       (campo (form_espacio_curricular fm))
                       (campo (form_anio fm)) (campo (form_horario fm))
                       (campo (form_docente fm))]
            /\ sqlite_sequence db < sqlite_sequence db'
            /\ Forall (fun x => id x < sqlite_sequence db') (examenes db))).
Proof.
  destruct (agregar_post_cases fm db)
    as [(C & E) | [(C & motivo & V & E) | (C & V & E)]].
  - exists faltan_datos, db. split; [exact E|]. left. auto.
  - exists (datos_invalidos motivo), db. split; [exact E|]. right; left.
    split; [exact C|]. split; [|reflexivity].
    exists motivo. split; [exact V|].
    split; [eapply validar_form_motivos; exact V | reflexivity].
  - eexists _, _. split; [exact E|]. right; right.
    split; [exact C|]. split; [exact V|]. split; [reflexivity|].
    apply sql_insert_fresh.
Qed.

(** X2: [POST /editar/<id>] ends in one of four ways.  With a field missing
    or empty it answers 400 "Faltan datos"; with a record the validator
    rejects it answers 400 with the validator's reason; in both cases the
    store is left as it was, whatever the id.  With a valid record and an id
    that fits 64 bits it answers the redirect, and the table keeps its
    rowids, their order and the AUTOINCREMENT mark: the rows under the rowid
    of the route hold the fields as sent and every other row is as it was.
    With a valid record and an id that does not fit 64 bits, binding the id
    raises OverflowError and nothing is written. *)
Theorem editar_post_outcome (rl : bool) (i : Z) (fm : form) (db : database) :
  (form_completo fm = false
   /\ editar i POST fm db
      = Ok (render_error
              (py "Faltan datos. Por favor complete todos los campos.") 400, db))
  \/ (form_completo fm = true
      /\ exists motivo,
           validar_form fm = Ok (false, motivo)
           /\ editar i POST fm db
              = Ok (render_error (py "Datos inválidos: " ++ motivo) 400, db))
  \/ (form_completo fm = true
      /\ validar_form fm = Ok (true, py "")
      /\ - 2 ^ 63 <= i < 2 ^ 63
      /\ exists db',
           editar i POST fm db = Ok (redirect_index, db')
           /\ sqlite_sequence db' = sqlite_sequence db
           /\ Forall2 (fun x x' =>
                         id x' = id x
                         /\ (id x <> i -> x' = x)
                         /\ (id x = i ->
                             x' = mk_examen i (campo (form_fecha fm))
                                    (campo (form_espacio_curricular fm))
                                    (campo (form_anio fm))
                                    (campo (form_horario fm))
                                    (campo (form_docente fm))))
                      (examenes db) (examenes db'))
  \/ (form_completo fm = true
      /\ validar_form fm = Ok (true, py "")
      /\ ~ (- 2 ^ 63 <= i < 2 ^ 63)
      /\ editar i POST fm db = Raise OverflowError
      /\ serve rl db (req_editar i POST fm) = db).
Proof.
  destruct (editar_post_cases i fm db)
    as [(C & E) | [(C & motivo & V & E) | [(C & V & R & E) | (C & V & R & E)]]].
  - left. split; [exact C | exact E].
  - right; left. split; [exact C|]. exists motivo. split; [exact V | exact E].
  - right; right; left.
    split; [exact C|]. split; [exact V|]. split; [exact R|].
    eexists. split; [exact E|]. split; [reflexivity|].
    cbn [sql_update examenes].
    induction (examenes db) as [|x l IH]; cbn [map]; constructor; [|exact IH].
    destruct (id x =? i) eqn:Ei.
    + apply Z.eqb_eq in Ei. cbn [id]. repeat split; try congruence.
    + apply Z.eqb_neq in Ei. repeat split; congruence.
  - right; right; right.
    split; [exact C|]. split; [exact V|]. split; [exact R|].
    split; [exact E|]. unfold serve. cbn [handle]. rewrite E. reflexivity.
Qed.

(** ** Requests as a whole *)

(** A request is answered, or it names an id that does not fit 64 bits and
    binding it raises. *)
Lemma handle_cases (rl : bool) (rq : request) (db : database) :
  (exists r db', handle rl rq db = Ok (r, db'))
  \/ (handle rl rq db = Raise OverflowError
      /\ exists i, ~ sqlite_integer i
                   /\ (rq = req_eliminar i
                       \/ exists m fm, rq = req_editar i m fm)).
Proof.
  destruct rq as [|m fm|i m fm|i|t]; cbn [handle].
  - left. destruct (index_listing db) as (rows & E & _). eauto.
  - left. destruct m; [unfold agregar; eauto|].
    destruct (agregar_post_cases fm db)
      as [(_ & E) | [(_ & mo & _ & E) | (_ & _ & E)]]; eauto.
  - destruct m.
    + unfold editar.
      destruct (sqlite_bind_int_cases i) as [[R E] | [R E]]; rewrite E;
        cbn [bind].
      * left. destruct (sql_select_by_id i db); eauto.
      * right. split; [reflexivity|]. exists i. split; [exact R|]. eauto.
    + destruct (editar_post_cases i fm db)
        as [(_ & E) | [(_ & mo & _ & E) | [(_ & _ & _ & E) | (_ & _ & R & E)]]];
        eauto.
      right. split; [exact E|]. exists i. split; [exact R|]. eauto.
  - unfold eliminar.
    destruct (sqlite_bind_int_cases i) as [[R E] | [R E]]; rewrite E;
      cbn [bind].
    + left. eauto.
    + right. split; [reflexivity|]. exists i. split; [exact R|]. eauto.
  - left. destruct (exportar_pdf_rows t db) as (rows & _ & Hp & Hc).
    destruct rl; eauto.
Qed.

Lemma solo_lectura_db (rl : bool) (rq : request) (db db' : database)
    (r : response) :
  solo_lectura rq = true -> handle rl rq db = Ok (r, db') -> db' = db.
Proof.
  destruct rq as [|m fm|i m fm|i|t]; cbn [handle solo_lectura].
  - intros _. destruct (index_listing db) as (rows & E & _). rewrite E.
    intros [= _ <-]. reflexivity.
  - destruct m; [|discriminate]. intros _. unfold agregar.
    intros [= _ <-]. reflexivity.
  - destruct m; [|discriminate]. intros _. unfold editar.
    destruct (sqlite_bind_int i) as [j|x]; cbn [bind]; [|discriminate].
    destruct (sql_select_by_id j db); intros [= _ <-]; reflexivity.
  - discriminate.
  - intros _. destruct (exportar_pdf_rows t db) as (rows & _ & Hp & Hc).
    destruct rl; [rewrite Hp | rewrite Hc]; intros [= _ <-]; reflexivity.
Qed.

(** X3: a request whose id, if it has one, fits 64 bits is answered: the
    route returns a response and a store.  The only exception a request can
    make a route raise is OverflowError, and only [/editar] and [/eliminar]
    with an id that does not fit 64 bits raise it: [/eliminar] and
    [GET /editar] always do on such an id, and the store is left as it
    was. *)
Theorem routes_raise_only_overflow (rl : bool) (rq : request) (db : database) :
  ((forall i, rq = req_eliminar i \/ (exists m fm, rq = req_editar i m fm) ->
              - 2 ^ 63 <= i < 2 ^ 63) ->
   exists r db', handle rl rq db = Ok (r, db'))
  /\ (forall e, handle rl rq db = Raise e ->
        e = OverflowError
        /\ serve rl db rq = db
        /\ exists i, ~ (- 2 ^ 63 <= i < 2 ^ 63)
                     /\ (rq = req_eliminar i
                         \/ exists m fm, rq = req_editar i m fm))
  /\ (forall i, ~ (- 2 ^ 63 <= i < 2 ^ 63) ->
        handle rl (req_eliminar i) db = Raise OverflowError
        /\ forall fm, handle rl (req_editar i GET fm) db = Raise OverflowError).
Proof.
  split; [|split].
  - intros H. destruct (handle_cases rl rq db) as [E | (_ & i & R & Hi)];
      [exact E|].
    exfalso. apply R. apply H. exact Hi.
  - intros e E. destruct (handle_cases rl rq db)
      as [(r & db' & E') | (E' & i & R & Hi)]; [congruence|].
    split; [congruence|]. split; [unfold serve; rewrite E'; reflexivity|].
    exists i. split; [exact R | exact Hi].
  - intros i R. cbn [handle]. unfold eliminar, editar.
    rewrite (sqlite_bind_int_overflow i R). split; [reflexivity|].
    intros fm. reflexivity.
Qed.

(** X4: the listing, the two forms requested with GET and the export leave
    the store exactly as it was. *)
Theorem read_routes_keep_store (rl : bool) (rq : request) (db db' : database)
    (r : response) :
  solo_lectura rq = true -> handle rl rq db = Ok (r, db') -> db' = db.
Proof. apply solo_lectura_db. Qed.

Lemma read_routes_keep_store_witness :
  sql_insert (py "2025-08-22") (py "Lengua") (py "2° año") (py "14:00")
    (py "GOMEZ, CARLOS") empty_db
  = sql_insert (py "2025-08-22") (py "Lengua") (py "2° año") (py "14:00")
      (py "GOMEZ, CARLOS") empty_db.
Proof.
  apply (read_routes_keep_store false req_index
           (sql_insert (py "2025-08-22") (py "Lengua") (py "2° año")
              (py "14:00") (py "GOMEZ, CARLOS") empty_db)
           (sql_insert (py "2025-08-22") (py "Lengua") (py "2° año")
              (py "14:00") (py "GOMEZ, CARLOS") empty_db)
           (render_index
              [mk_examen 1 (py "VIERNES 22/08/2025") (py "Lengua")
                 (py "2° año") (py "14:00") (py "GOMEZ, CARLOS")]));
    vm_compute; reflexivity.
Defined.

(** ** What the store holds *)

Lemma serve_valido (rl : bool) (rq : request) (db : database) :
  Forall examen_valido (examenes db) ->
  Forall examen_valido (examenes (serve rl db rq)).
Proof.
  intros F. unfold serve.
  destruct rq as [|m fm|i m fm|i|t].
  - destruct (handle rl req_index db) as [[r db']|x] eqn:E; [|exact F].
    rewrite (solo_lectura_db rl req_index db db' r eq_refl E). exact F.
  - destruct m.
    + destruct (handle rl (req_agregar GET fm) db) as [[r db']|x] eqn:E;
        [|exact F].
      rewrite (solo_lectura_db rl (req_agregar GET fm) db db' r eq_refl E).
      exact F.
    + cbn [handle].
      destruct (agregar_post_cases fm db)
        as [(_ & E) | [(_ & mo & _ & E) | (_ & V & E)]]; rewrite E; try exact F.
      cbn [sql_insert examenes]. apply Forall_app. split; [exact F|].
      constructor; [exact V | constructor].
  - destruct m.
    + destruct (handle rl (req_editar i GET fm) db) as [[r db']|x] eqn:E;
        [|exact F].
      rewrite (solo_lectura_db rl (req_editar i GET fm) db db' r eq_refl E).
      exact F.
    + cbn [handle].
      destruct (editar_post_cases i fm db)
        as [(_ & E) | [(_ & mo & _ & E) | [(_ & V & _ & E) | (_ & _ & _ & E)]]];
        rewrite E; try exact F.
      cbn [sql_update examenes]. apply Forall_map.
      eapply Forall_impl; [|exact F]. intros x Hx.
      destruct (id x =? i); [exact V | exact Hx].
  - cbn [handle]. unfold eliminar.
    destruct (sqlite_bind_int i) as [j|x]; cbn [bind]; [|exact F].
    cbn [sql_delete examenes].
    apply Forall_forall. intros x Hx. apply filter_In in Hx.
    rewrite Forall_forall in F. apply F. tauto.
  - destruct (handle rl (req_exportar_pdf t) db) as [[r db']|x] eqn:E;
      [|exact F].
    rewrite (solo_lectura_db rl (req_exportar_pdf t) db db' r eq_refl E).
    exact F.
Qed.

Lemma serve_all_valido (rl : bool) (rqs : list request) : forall db,
  Forall examen_valido (examenes db) ->
  Forall examen_valido (examenes (serve_all rl rqs db)).
Proof.
  unfold serve_all. induction rqs as [|rq rqs IH]; simpl; intros db F;
    [exact F|].
  apply IH, serve_valido, F.
Qed.

(** X5: whatever requests were served since the store was empty, every row
    of the table passes the validator: its date parses as a date of the
    calendar, its subject is in the catalog, its year is one of the five
    labels and neither its time slot nor its teacher is blank. *)
Theorem stored_rows_are_valid (rl : bool) (history : list request) :
  Forall (fun r =>
            validar_datos_examen (fecha r) (espacio_curricular r) (anio r)
              (horario r) (docente r) = Ok (true, py "")
            /\ (exists dt,
                  strptime (fecha r) = Ok dt
                  /\ valid_date (datetime.year dt) (datetime.month dt)
                       (datetime.day dt))
            /\ In (espacio_curricular r) ESPACIOS_CURRICULARES
            /\ In (anio r) anios_permitidos
            /\ strip (horario r) <> [] /\ strip (docente r) <> [])
         (examenes (serve_all rl history empty_db)).
Proof.
  pose proof (serve_all_valido rl history empty_db (Forall_nil _)) as F.
  eapply Forall_impl; [|exact F]. intros r V. split; [exact V|].
  apply validar_accepts_iff in V. destruct V as ([dt P] & He & Ha & Hh & Hd).
  split; [|tauto].
  exists dt. split; [exact P|]. apply strptime_valid_date in P. exact P.
Qed.

Lemma StronglySorted_lt_NoDup (l : list Z) : StronglySorted Z.lt l -> NoDup l.
Proof.
  induction 1 as [|x l S IH F]; constructor; [|exact IH].
  intros Hin. rewrite Forall_forall in F. specialize (F x Hin). lia.
Qed.

(** X6: whatever requests were served since the store was empty, the rowids
    of the table are pairwise distinct, ascend in the order of the table and
    lie between 1 and the AUTOINCREMENT mark; the next insertion takes the
    mark plus one, also after deletions; and the mark never goes down. *)
Theorem rowids_invariant (rl : bool) (history : list request) :
  let db := serve_all rl history empty_db in
  NoDup (map id (examenes db))
  /\ StronglySorted Z.lt (map id (examenes db))
  /\ Forall (fun r => 1 <= id r <= sqlite_sequence db) (examenes db)
  /\ (forall f e a h d,
        sqlite_sequence (sql_insert f e a h d db) = sqlite_sequence db + 1)
  /\ (forall later,
        sqlite_sequence db
        <= sqlite_sequence (serve_all rl (history ++ later) empty_db)).
Proof.
  intros db.
  destruct (wf_serve_all rl history empty_db wf_empty) as [S B]. fold db in S, B.
  pose proof (serve_all_ids_positive rl history empty_db (Forall_nil _)) as P.
  fold db in P.
  pose proof (serve_all_sequence_mono rl history empty_db) as M. fold db in M.
  cbn [empty_db sqlite_sequence] in M.
  split; [apply StronglySorted_lt_NoDup; exact S|].
  split; [exact S|].
  split.
  - rewrite Forall_forall in *. intros r Hr.
    specialize (B r Hr). specialize (P r Hr). lia.
  - split.
    + intros f e a h d. cbn [sql_insert sqlite_sequence].
      pose proof (max_rowid_le (examenes db) (sqlite_sequence db) M B).
      pose proof (max_rowid_nonneg (examenes db)). lia.
    + intros later. unfold serve_all. rewrite fold_left_app.
      apply (serve_all_sequence_mono rl later).
Qed.

(** ** Deleting *)

Lemma insert_row_head (x : examen) (l : list examen) :
  Forall (fecha_le x) l -> insert_row x l = x :: l.
Proof.
  intros [|y l' Hy _]; [reflexivity|].
  cbn [insert_row]. apply fecha_leb_le in Hy. rewrite Hy. reflexivity.
Qed.

Lemma insert_row_filter (p : examen -> bool) (x : examen) (l : list examen) :
  StronglySorted fecha_le l ->
  filter p (insert_row x l)
  = if p x then insert_row x (filter p l) else filter p l.
Proof.
  induction 1 as [|y l S IH F].
  - cbn [insert_row filter]. destruct (p x); reflexivity.
  - cbn [insert_row]. destruct (fecha_leb x y) eqn:E.
    + change (filter p (x :: y :: l))
        with (if p x then x :: filter p (y :: l) else filter p (y :: l)).
      destruct (p x); [|reflexivity].
      symmetry. apply insert_row_head.
      apply fecha_leb_le in E. apply Forall_forall. intros z Hz.
      apply filter_In in Hz. destruct Hz as [[<- | Hz] _]; [exact E|].
      rewrite Forall_forall in F. eapply fecha_le_trans; [exact E|].
      apply F. exact Hz.
    + cbn [filter]. rewrite IH.
      destruct (p y), (p x); cbn [insert_row]; rewrite ?E; reflexivity.
Qed.

(** Sorting the rows that are kept gives the sorted rows that are kept. *)
Lemma order_by_fecha_filter (p : examen -> bool) (l : list examen) :
  order_by_fecha (filter p l) = filter p (order_by_fecha l).
Proof.
  induction l as [|x l IH]; [reflexivity|].
  change (order_by_fecha (x :: l)) with (insert_row x (order_by_fecha l)).
  rewrite insert_row_filter by apply order_by_fecha_sorted.
  rewrite <- IH. cbn [filter]. destruct (p x); reflexivity.
Qed.

Lemma filter_twice {A} (p : A -> bool) (l : list A) :
  filter p (filter p l) = filter p l.
Proof.
  induction l as [|x l IH]; [reflexivity|].
  cbn [filter]. destruct (p x) eqn:E; [|exact IH].
  cbn [filter]. rewrite E, IH. reflexivity.
Qed.

Lemma filter_all {A} (p : A -> bool) (l : list A) :
  (forall x, In x l -> p x = true) -> filter p l = l.
Proof.
  induction l as [|x l IH]; intros H; [reflexivity|].
  cbn [filter]. rewrite (H x (or_introl eq_refl)).
  rewrite IH by (intros z Hz; apply H; right; exact Hz). reflexivity.
Qed.

(** X7: for an id that fits 64 bits [/eliminar/<id>] answers the redirect.
    The listing is then the old listing without the rows of that rowid, the
    other rows in the same order; the AUTOINCREMENT mark is kept; deleting a
    rowid that is not in the table leaves the store as it was, so a second
    delete of the same rowid changes nothing.  For an id that does not fit
    64 bits, binding it raises OverflowError and the store is left as it
    was. *)
Theorem eliminar_outcome (rl : bool) (i : Z) (db : database) :
  (- 2 ^ 63 <= i < 2 ^ 63 ->
   exists db',
     eliminar i db = Ok (redirect_index, db')
     /\ sql_select_all db'
        = filter (fun r => negb (id r =? i)) (sql_select_all db)
     /\ sqlite_sequence db' = sqlite_sequence db
     /\ (sql_select_by_id i db = None -> db' = db)
     /\ eliminar i db' = Ok (redirect_index, db'))
  /\ (~ (- 2 ^ 63 <= i < 2 ^ 63) ->
      eliminar i db = Raise OverflowError
      /\ serve rl db (req_eliminar i) = db).
Proof.
  split.
  - intros R. exists (sql_delete i db). unfold eliminar.
    rewrite (sqlite_bind_int_ok i R). cbn [bind]. split; [reflexivity|].
    split; [apply order_by_fecha_filter|]. split; [reflexivity|]. split.
    + intros N. destruct db as [rows s]. unfold sql_delete.
      cbn [examenes sqlite_sequence].
      f_equal. apply filter_all. intros x Hx.
      unfold sql_select_by_id in N. cbn [examenes] in N.
      apply (find_none _ _ N) in Hx. rewrite Hx. reflexivity.
    + unfold sql_delete. cbn [examenes sqlite_sequence].
      rewrite filter_twice. reflexivity.
  - intros R. unfold serve. cbn [handle]. unfold eliminar.
    rewrite (sqlite_bind_int_overflow i R). split; reflexivity.
Qed.

Lemma eliminar_outcome_witness :
  eliminar 9223372036854775808 empty_db = Raise OverflowError
  /\ serve false empty_db (req_eliminar 9223372036854775808) = empty_db.
Proof.
  apply (proj2 (eliminar_outcome false 9223372036854775808 empty_db)).
  unfold sqlite_integer. lia.
Defined.

(** ** More on the two formatters *)

Lemma strptime_first_not_digit (c : Z) (s : pystr) :
  unicode_decimal c = None -> strptime (c :: s) = Raise ValueError.
Proof.
  intros H. unfold strptime, format_regex, re_Y.
  cbn [re_match match_seq cls_match]. rewrite H. reflexivity.
Qed.

Lemma dias_semana_first (dia : pystr) :
  In dia dias_semana \/ In dia dias_semana_abrev ->
  exists c t, dia = c :: t /\ unicode_decimal c = None
              /\ 3 <= Z.of_nat (List.length dia) <= 9.
Proof.
  intros [H | H]; vm_compute in H;
    repeat (destruct H as [<- | H];
            [eexists _, _; split; [reflexivity|]; split;
             [reflexivity | cbn [List.length]; lia]|]);
    contradiction.
Qed.

Lemma zero_padded_length (w : nat) : forall n,
  List.length (datetime.zero_padded w n) = w.
Proof.
  induction w as [|w IH]; intros n; [reflexivity|].
  cbn [datetime.zero_padded]. rewrite length_app, IH. cbn [List.length]. lia.
Qed.

(** The year takes one to four characters, four from the year 1000 on. *)
Lemma strftime_Y_length (y : Z) :
  (1 <= List.length (datetime.strftime_Y y) <= 4)%nat
  /\ (1000 <= y -> List.length (datetime.strftime_Y y) = 4%nat)
  /\ (y < 1000 -> (List.length (datetime.strftime_Y y) < 4)%nat).
Proof.
  unfold datetime.strftime_Y.
  destruct (y <? 10) eqn:H1; [|destruct (y <? 100) eqn:H2;
    [|destruct (y <? 1000) eqn:H3]];
    rewrite zero_padded_length;
    try apply Z.ltb_lt in H1; try apply Z.ltb_ge in H1;
    try apply Z.ltb_lt in H2; try apply Z.ltb_ge in H2;
    try apply Z.ltb_lt in H3; try apply Z.ltb_ge in H3;
    (split; [lia|]); split; intros; lia.
Qed.

Lemma strftime_dmY_length (dt : datetime.t) :
  (7 <= List.length (datetime.strftime_dmY dt) <= 10)%nat
  /\ (1000 <= datetime.year dt ->
      List.length (datetime.strftime_dmY dt) = 10%nat)
  /\ (datetime.year dt < 1000 ->
      (List.length (datetime.strftime_dmY dt) < 10)%nat).
Proof.
  unfold datetime.strftime_dmY.
  rewrite !length_app, !zero_padded_length. cbn [List.length].
  destruct (strftime_Y_length (datetime.year dt)) as (B & G & L).
  split; [lia|]. split; intros H; [specialize (G H) | specialize (L H)]; lia.
Qed.

(** X8: a formatted date does not parse as a date, so formatting it again
    returns it unchanged: both formatters are idempotent, on every string. *)
Theorem formatters_idempotent (s : pystr) :
  exists r r',
    formatear_fecha s = Ok r /\ formatear_fecha_compacta s = Ok r'
    /\ formatear_fecha r = Ok r /\ formatear_fecha_compacta r' = Ok r'
    /\ formatear_fecha r' = Ok r' /\ formatear_fecha_compacta r = Ok r
    /\ (parses s -> ~ parses r /\ ~ parses r').
Proof.
  destruct (strptime_cases s) as [[dt P] | N].
  - destruct (formatear_fecha_ok s dt P) as (dia & Hd & E).
    destruct (formatear_fecha_compacta_ok s dt P) as (ab & Ha & E').
    apply nth_error_In in Hd, Ha.
    destruct (dias_semana_first dia (or_introl Hd)) as (c & t & -> & Hc & _).
    destruct (dias_semana_first ab (or_intror Ha)) as (c' & t' & -> & Hc' & _).
    eexists _, _. split; [exact E|]. split; [exact E'|].
    cbn [app].
    pose proof (strptime_first_not_digit c
                  (t ++ py " " ++ datetime.strftime_dmY dt) Hc) as R.
    pose proof (strptime_first_not_digit c'
                  (t' ++ py " " ++ datetime.strftime_dmY dt) Hc') as R'.
    split; [apply formatear_fecha_invalid; exact R|].
    split; [apply formatear_fecha_compacta_invalid; exact R'|].
    split; [apply formatear_fecha_invalid; exact R'|].
    split; [apply formatear_fecha_compacta_invalid; exact R|].
    intros _. unfold parses. split; intros [dt' H]; congruence.
  - exists s, s.
    rewrite (formatear_fecha_invalid s N), (formatear_fecha_compacta_invalid s N).
    repeat split; try reflexivity;
      unfold parses in *; destruct H as [dt H]; congruence.
Qed.

(** X9: for a string that parses as a date both forms end in the same
    characters, a space and the date, after a token of 3 characters or a
    weekday name of 5 to 9.  From the year 1000 on the date is the 10
    characters of DD/MM/YYYY and the compact form has exactly 14 characters;
    below the year 1000 the year is written with fewer than four digits and
    the compact form has 11 to 13 characters. *)
Theorem formatted_widths (s : pystr) (dt : datetime.t) :
  strptime s = Ok dt ->
  exists dia abrev cola,
    formatear_fecha s = Ok (dia ++ cola)
    /\ formatear_fecha_compacta s = Ok (abrev ++ cola)
    /\ List.length abrev = 3%nat
    /\ (5 <= List.length dia <= 9)%nat
    /\ (8 <= List.length cola <= 11)%nat
    /\ (11 <= List.length (abrev ++ cola) <= 14)%nat
    /\ (1000 <= datetime.year dt ->
        List.length cola = 11%nat /\ List.length (abrev ++ cola) = 14%nat)
    /\ (datetime.year dt < 1000 ->
        (List.length (abrev ++ cola) < 14)%nat).
Proof.
  intros P.
  destruct (formatear_fecha_ok s dt P) as (dia & Hd & E).
  destruct (formatear_fecha_compacta_ok s dt P) as (ab & Ha & E').
  exists dia, ab, (py " " ++ datetime.strftime_dmY dt).
  split; [exact E|]. split; [exact E'|].
  destruct (strftime_dmY_length dt) as (B & G & L).
  assert (Lc : List.length (py " " ++ datetime.strftime_dmY dt)
               = S (List.length (datetime.strftime_dmY dt)))
    by (rewrite length_app; reflexivity).
  apply nth_error_In in Hd, Ha.
  assert (La : List.length ab = 3%nat)
    by (vm_compute in Ha;
        repeat (destruct Ha as [<- | Ha]; [reflexivity|]); contradiction).
  assert (Ld : (5 <= List.length dia <= 9)%nat)
    by (vm_compute in Hd;
        repeat (destruct Hd as [<- | Hd]; [cbn [List.length]; lia|]);
        contradiction).
  assert (Lac : List.length (ab ++ py " " ++ datetime.strftime_dmY dt)
                = (4 + List.length (datetime.strftime_dmY dt))%nat)
    by (rewrite length_app, La, Lc; lia).
  split; [exact La|]. split; [exact Ld|].
  rewrite Lac, Lc.
  split; [lia|]. split; [lia|].
  split; intros H; [specialize (G H) | specialize (L H)]; lia.
Qed.

Lemma formatted_widths_witness :
  exists dia abrev cola,
    formatear_fecha (py "0999-1-1") = Ok (dia ++ cola)
    /\ formatear_fecha_compacta (py "0999-1-1") = Ok (abrev ++ cola)
    /\ List.length abrev = 3%nat
    /\ (5 <= List.length dia <= 9)%nat
    /\ (8 <= List.length cola <= 11)%nat
    /\ (11 <= List.length (abrev ++ cola) <= 14)%nat
    /\ (1000 <= 999 ->
        List.length cola = 11%nat /\ List.length (abrev ++ cola) = 14%nat)
    /\ (999 < 1000 -> (List.length (abrev ++ cola) < 14)%nat).
Proof.
  apply (formatted_widths (py "0999-1-1") (datetime.mk 999 1 1)).
  vm_compute. reflexivity.
Defined.

(** X10: the two formatted forms depend on the date only, not on the way it
    is written: a string that parses renders as the ISO text of its date
    does. *)
Theorem formatting_depends_on_date_only (s : pystr) (dt : datetime.t) :
  strptime s = Ok dt ->
  let iso := isoformat (datetime.year dt) (datetime.month dt) (datetime.day dt) in
  strptime iso = Ok dt
  /\ formatear_fecha s = formatear_fecha iso
  /\ formatear_fecha_compacta s = formatear_fecha_compacta iso.
Proof.
  intros P iso.
  assert (Pi : strptime iso = Ok dt).
  { unfold iso. rewrite strptime_isoformat.
    - destruct dt; reflexivity.
    - apply strptime_valid_date in P. exact P. }
  split; [exact Pi|].
  destruct (formatear_fecha_ok s dt P) as (dia & Hd & E).
  destruct (formatear_fecha_ok iso dt Pi) as (dia' & Hd' & Ei).
  destruct (formatear_fecha_compacta_ok s dt P) as (ab & Ha & E').
  destruct (formatear_fecha_compacta_ok iso dt Pi) as (ab' & Ha' & Ei').
  rewrite E, Ei, E', Ei'. split; congruence.
Qed.

Lemma formatting_depends_on_date_only_witness :
  strptime (py "2025-09-01") = Ok (datetime.mk 2025 9 1)
  /\ formatear_fecha (py "2025-9-1") = formatear_fecha (py "2025-09-01")
  /\ formatear_fecha_compacta (py "2025-9-1")
     = formatear_fecha_compacta (py "2025-09-01").
Proof.
  apply (formatting_depends_on_date_only (py "2025-9-1") (datetime.mk 2025 9 1)).
  vm_compute. reflexivity.
Defined.

(** ** The shape of an accepted date *)

Lemma match_seq_split (ks : list cls) : forall s g r,
  match_seq ks s = Some (g, r) ->
  s = g ++ r /\ List.length g = List.length ks.
Proof.
  induction ks as [|k ks IH]; intros s g r H.
  - cbn [match_seq] in H. injection H as <- <-. split; reflexivity.
  - cbn [match_seq] in H. destruct s as [|c s]; [discriminate|].
    destruct (cls_match k c); [|discriminate].
    destruct (match_seq ks s) as [[g' r']|] eqn:M; [|discriminate].
    injection H as <- <-. destruct (IH s g' r' M) as [-> L].
    split; [reflexivity | cbn [List.length]; congruence].
Qed.

Lemma re_match_group (alts : list (list cls)) (p : list item) (s : pystr)
    (gs : list pystr) (r : pystr) :
  re_match (Group alts :: p) s = Some (gs, r) ->
  exists a g s' gs',
    In a alts /\ match_seq a s = Some (g, s')
    /\ re_match p s' = Some (gs', r) /\ gs = g :: gs'.
Proof.
  cbn [re_match]. induction alts as [|a alts IH]; [discriminate|].
  destruct (match_seq a s) as [[g s']|] eqn:M.
  - destruct (re_match p s') as [[gs' r']|] eqn:R.
    + intros [= <- <-]. exists a, g, s', gs'.
      split; [left; reflexivity | auto].
    + intros H. destruct (IH H) as (a' & g' & s'' & gs' & Hin & H').
      exists a', g', s'', gs'. split; [right; exact Hin | exact H'].
  - intros H. destruct (IH H) as (a' & g' & s'' & gs' & Hin & H').
    exists a', g', s'', gs'. split; [right; exact Hin | exact H'].
Qed.

Lemma re_match_lit (x : Z) (p : list item) (s : pystr) (gs : list pystr)
    (r : pystr) :
  re_match (Char (Lit x) :: p) s = Some (gs, r) ->
  exists s', s = x :: s' /\ re_match p s' = Some (gs, r).
Proof.
  cbn [re_match cls_match]. destruct s as [|c s]; [discriminate|].
  destruct (c =? x) eqn:E; [|discriminate].
  apply Z.eqb_eq in E. subst c. eauto.
Qed.

(** X11: a string that is accepted as a date is made of three groups
    separated by two hyphens, with nothing before, between or after them: a
    year of four digits, a month of one or two and a day of one or two
    characters; the date is the one these groups read as.  Such a string has
    between 8 and 10 characters. *)
Theorem accepted_date_shape (s : pystr) (dt : datetime.t) :
  strptime s = Ok dt ->
  exists gY gm gd,
    s = gY ++ [45] ++ gm ++ [45] ++ gd
    /\ List.length gY = 4%nat
    /\ (1 <= List.length gm <= 2)%nat
    /\ (1 <= List.length gd <= 2)%nat
    /\ py_int gY = Ok (datetime.year dt)
    /\ py_int gm = Ok (datetime.month dt)
    /\ py_int gd = Ok (datetime.day dt)
    /\ (8 <= List.length s <= 10)%nat.
Proof.
  unfold strptime.
  destruct (re_match format_regex s) as [[gs r]|] eqn:R; [|discriminate].
  destruct r; [|discriminate].
  destruct gs as [|gY [|gm [|gd [|? ?]]]]; try discriminate.
  unfold bind.
  destruct (py_int gY) as [y|] eqn:EY; [|discriminate].
  destruct (py_int gm) as [m|] eqn:Em; [|discriminate].
  destruct (py_int gd) as [d|] eqn:Ed; [|discriminate].
  intros N. apply new_fields in N. destruct N as (-> & _).
  unfold format_regex, re_Y, re_m, re_d in R.
  apply re_match_group in R.
  destruct R as (aY & gY' & s1 & gs1 & HaY & MY & R & [= <- <-]).
  apply re_match_lit in R. destruct R as (s2 & -> & R).
  apply re_match_group in R.
  destruct R as (am & gm' & s3 & gs3 & Ham & Mm & R & [= <- <-]).
  apply re_match_lit in R. destruct R as (s4 & -> & R).
  apply re_match_group in R.
  destruct R as (ad & gd' & s5 & gs5 & Had & Md & R & [= <- <-]).
  cbn [re_match] in R. injection R as ->.
  apply match_seq_split in MY, Mm, Md.
  destruct MY as [-> LY]. destruct Mm as [-> Lm]. destruct Md as [-> Ld].
  assert (LY' : List.length gY = 4%nat)
    by (destruct HaY as [<- | []]; exact LY).
  assert (Lm' : (1 <= List.length gm <= 2)%nat)
    by (destruct Ham as [<- | [<- | [<- | []]]]; rewrite Lm; simpl; lia).
  assert (Ld' : (1 <= List.length gd <= 2)%nat)
    by (destruct Had as [<- | [<- | [<- | [<- | [<- | []]]]]]; rewrite Ld;
        simpl; lia).
  exists gY, gm, gd. rewrite app_nil_r.
  split; [reflexivity|]. split; [exact LY'|]. split; [exact Lm'|].
  split; [exact Ld'|]. split; [exact EY|]. split; [exact Em|].
  split; [exact Ed|].
  repeat (rewrite length_app; cbn [List.length app]). lia.
Qed.

Lemma accepted_date_shape_witness :
  exists gY gm gd,
    py "2025-9-12" = gY ++ [45] ++ gm ++ [45] ++ gd
    /\ List.length gY = 4%nat
    /\ (1 <= List.length gm <= 2)%nat
    /\ (1 <= List.length gd <= 2)%nat
    /\ py_int gY = Ok 2025
    /\ py_int gm = Ok 9
    /\ py_int gd = Ok 12
    /\ (8 <= List.length (py "2025-9-12") <= 10)%nat.
Proof.
  apply (accepted_date_shape (py "2025-9-12") (datetime.mk 2025 9 12)).
  vm_compute. reflexivity.
Defined.

(** ** More on the export *)

(** X12: on every store both renderers get as many data rows as the table
    has records, each of five columns; the footer of the rich document states
    that number; on a store with no record the fallback file is the header
    line alone. *)
Theorem export_counts (fecha_exportacion : pystr) (db : database) :
  exists rows,
    List.length rows = List.length (examenes db)
    /\ Forall (fun row => List.length row = 5%nat) rows
    /\ exportar_pdf true fecha_exportacion db
       = Ok (send_pdf
               (mk_pdf (py "Cronograma de Exámenes")
                  ([py "Fecha"; py "Espacio Curricular"; py "Año"; py "Horario";
                    py "Docente"] :: rows)
                  [90; 150; 50; 70; 90]
                  (py "<i>Exportado el " ++ fecha_exportacion
                   ++ py " - Total de exámenes: "
                   ++ py_str_nat (List.length (examenes db)) ++ py "</i>"))
               (py "cronograma_examenes.pdf"), db)
    /\ exportar_pdf false fecha_exportacion db
       = Ok (send_csv
               (List.concat
                  (map csv_writerow
                     ([py "Fecha"; py "Espacio Curricular"; py "Año";
                       py "Horario"; py "Docente"] :: rows)))
               (py "cronograma_examenes.csv") (py "text/csv"), db)
    /\ (examenes db = [] ->
        exportar_pdf false fecha_exportacion db
        = Ok (send_csv
                (py "Fecha,Espacio Curricular,Año,Horario,Docente" ++ [13; 10])
                (py "cronograma_examenes.csv") (py "text/csv"), db)).
Proof.
  destruct (exportar_pdf_rows fecha_exportacion db) as (rows & F & Hp & Hc).
  assert (L : List.length rows = List.length (examenes db)).
  { rewrite <- (Forall2_length F). unfold sql_select_all.
    symmetry. apply Permutation_length, order_by_fecha_perm. }
  exists rows. split; [exact L|]. split.
  - clear Hp Hc L. induction F as [|r row l rows' (c & _ & ->) F' IH];
      constructor; [reflexivity | exact IH].
  - split; [rewrite <- L; exact Hp|]. split; [exact Hc|].
    intros E. rewrite E in L. destruct rows; [|discriminate L].
    rewrite Hc. reflexivity.
Qed.

(** X13: on a store reached from the empty one through the routes the
    fail-soft branch of the formatters is never taken: every stored date
    parses; every date of the listing is a weekday name followed by a space
    and the date, 8 to 11 characters that are the 11 of a space and
    DD/MM/YYYY from the year 1000 on; every date handed to the export has 11
    to 14 characters, 14 from the year 1000 on; and no date shown is the
    stored text itself. *)
Theorem reachable_dates_are_formatted (rl : bool) (history : list request)
    (fecha_exportacion : pystr) :
  let db := serve_all rl history empty_db in
  (exists rows,
     index db = Ok (render_index rows, db)
     /\ List.length rows = List.length (examenes db)
     /\ Forall2 (fun r r' =>
                   exists dt dia cola,
                     strptime (fecha r) = Ok dt
                     /\ fecha r' = dia ++ cola /\ In dia dias_semana
                     /\ (8 <= List.length cola <= 11)%nat
                     /\ (1000 <= datetime.year dt ->
                         List.length cola = 11%nat)
                     /\ fecha r' <> fecha r)
                (sql_select_all db) rows)
  /\ (exists rows,
        exportar_pdf false fecha_exportacion db
        = Ok (send_csv
                (List.concat (map csv_writerow (csv_header :: rows)))
                (py "cronograma_examenes.csv") (py "text/csv"), db)
        /\ Forall2 (fun r row =>
                      exists dt c resto,
                        strptime (fecha r) = Ok dt
                        /\ row = c :: resto
                        /\ (11 <= List.length c <= 14)%nat
                        /\ (1000 <= datetime.year dt ->
                            List.length c = 14%nat)
                        /\ List.length resto = 4%nat
                        /\ c <> fecha r)
                   (sql_select_all db) rows).
Proof.
  intros db.
  pose proof (serve_all_valido rl history empty_db (Forall_nil _)) as V.
  fold db in V.
  assert (VS : forall r, In r (sql_select_all db) -> parses (fecha r)).
  { intros r Hr. unfold sql_select_all in Hr.
    apply (Permutation_in _ (Permutation_sym (order_by_fecha_perm _))) in Hr.
    rewrite Forall_forall in V. specialize (V r Hr).
    apply validar_accepts_iff in V. tauto. }
  split.
  - destruct (index_listing db) as (rows & E & F).
    exists rows. split; [exact E|]. split.
    { rewrite <- (Forall2_length F). unfold sql_select_all.
      symmetry. apply Permutation_length, order_by_fecha_perm. }
    clear E. induction F as [|r r' l rows' (Hf & _) F' IH]; constructor.
    + destruct (VS r (or_introl eq_refl)) as [dt P].
      destruct (formatear_fecha_ok (fecha r) dt P) as (dia & Hd & E).
      rewrite E in Hf. injection Hf as Hf.
      apply nth_error_In in Hd.
      destruct (strftime_dmY_length dt) as (B & G & _).
      exists dt, dia, (py " " ++ datetime.strftime_dmY dt).
      split; [exact P|]. split; [symmetry; exact Hf|]. split; [exact Hd|].
      assert (Lc : List.length (py " " ++ datetime.strftime_dmY dt)
                   = S (List.length (datetime.strftime_dmY dt)))
        by (rewrite length_app; reflexivity).
      rewrite Lc. split; [lia|]. split; [intros H; specialize (G H); lia|].
      intros Eq. rewrite <- Hf in Eq.
      destruct (dias_semana_first dia (or_introl Hd)) as (c & t & -> & Hc & _).
      rewrite <- Eq in P. cbn [app] in P.
      rewrite (strptime_first_not_digit c _ Hc) in P. discriminate P.
    + apply IH. intros z Hz. apply VS. right. exact Hz.
  - destruct (exportar_pdf_rows fecha_exportacion db) as (rows & F & _ & Hc).
    exists rows. split; [exact Hc|].
    clear Hc. induction F as [|r row l rows' (c & Hf & ->) F' IH]; constructor.
    + destruct (VS r (or_introl eq_refl)) as [dt P].
      destruct (formatear_fecha_compacta_ok (fecha r) dt P) as (ab & Ha & E).
      rewrite E in Hf. injection Hf as Hf.
      apply nth_error_In in Ha.
      destruct (strftime_dmY_length dt) as (B & G & _).
      exists dt, c, [espacio_curricular r; anio r; horario r; docente r].
      split; [exact P|]. split; [reflexivity|].
      assert (La : List.length ab = 3%nat)
        by (pose proof Ha as Ha'; vm_compute in Ha';
            repeat (destruct Ha' as [<- | Ha']; [reflexivity|]);
            contradiction).
      assert (L : List.length c
                  = (4 + List.length (datetime.strftime_dmY dt))%nat).
      { rewrite <- Hf, !length_app, La. cbn [List.length]. lia. }
      rewrite L. split; [lia|]. split; [intros H; specialize (G H); lia|].
      split; [reflexivity|].
      intros Eq. rewrite <- Hf in Eq.
      destruct (dias_semana_first ab (or_intror Ha)) as (c0 & t & -> & Hc0 & _).
      rewrite <- Eq in P. cbn [app] in P.
      rewrite (strptime_first_not_digit c0 _ Hc0) in P. discriminate P.
    + apply IH. intros z Hz. apply VS. right. exact Hz.
Qed.

(** ** The fallback file can be read back *)

Lemma csv_special_false (c : Z) :
  csv_special c = false ->
  (c =? 44) = false /\ (c =? 34) = false /\ (c =? 13) = false.
Proof.
  unfold csv_special. intros H.
  apply orb_false_iff in H. destruct H as [H _].
  apply orb_false_iff in H. destruct H as [H H13].
  apply orb_false_iff in H. tauto.
Qed.

Lemma csv_reader_bare (f : pystr) : forall campos cur rest,
  existsb csv_special f = false ->
  csv_reader csv_bare campos cur (f ++ rest)
  = csv_reader csv_bare campos (rev f ++ cur) rest.
Proof.
  induction f as [|c f IH]; intros campos cur rest H; [reflexivity|].
  cbn [existsb] in H. apply orb_false_iff in H. destruct H as [Hc Hf].
  destruct (csv_special_false c Hc) as (H44 & H34 & H13).
  cbn [app csv_reader]. rewrite H44, H13. rewrite IH by exact Hf.
  cbn [rev]. rewrite <- app_assoc. reflexivity.
Qed.

Lemma csv_reader_quoted (f : pystr) : forall campos cur rest,
  csv_reader csv_quoted campos cur
    (flat_map (fun c => if c =? 34 then [34; 34] else [c]) f ++ 34 :: rest)
  = csv_reader csv_after_quote campos (rev f ++ cur) rest.
Proof.
  induction f as [|c f IH]; intros campos cur rest.
  - cbn [flat_map app csv_reader rev]. rewrite Z.eqb_refl. reflexivity.
  - cbn [flat_map rev]. rewrite <- !app_assoc.
    destruct (c =? 34) eqn:E.
    + apply Z.eqb_eq in E. subst c.
      cbn [app csv_reader]. rewrite Z.eqb_refl. rewrite IH. reflexivity.
    + cbn [app csv_reader]. rewrite E. rewrite IH. reflexivity.
Qed.

(** Reading one written field at the start of a field, up to what follows. *)
Lemma csv_reader_field (f : pystr) (campos : list pystr) (rest : pystr) :
  f <> [] ->
  csv_reader csv_start campos [] (csv_field f ++ rest)
  = if existsb csv_special f
    then csv_reader csv_after_quote campos (rev f) rest
    else csv_reader csv_bare campos (rev f) rest.
Proof.
  intros N. unfold csv_field. destruct (existsb csv_special f) eqn:S.
  - cbn [app csv_reader]. rewrite Z.eqb_refl.
    rewrite <- app_assoc. cbn [app].
    rewrite csv_reader_quoted. rewrite app_nil_r. reflexivity.
  - destruct f as [|c f]; [contradiction|].
    cbn [existsb] in S. apply orb_false_iff in S. destruct S as [Hc Hf].
    destruct (csv_special_false c Hc) as (H44 & H34 & H13).
    cbn [app csv_reader]. rewrite H34, H44, H13.
    rewrite csv_reader_bare by exact Hf. reflexivity.
Qed.

(** Reading a field and the separator or terminator after it. *)
Lemma csv_reader_field_comma (f : pystr) (campos : list pystr) (rest : pystr) :
  csv_reader csv_start campos [] (csv_field f ++ 44 :: rest)
  = csv_reader csv_start (f :: campos) [] rest.
Proof.
  destruct f as [|c f].
  - reflexivity.
  - rewrite csv_reader_field by discriminate.
    destruct (existsb csv_special (c :: f));
      cbn [csv_reader]; cbn [Z.eqb Pos.eqb]; rewrite rev_involutive; reflexivity.
Qed.

Lemma csv_reader_field_crlf (f : pystr) (campos : list pystr) (rest : pystr) :
  f <> [] \/ campos <> [] ->
  csv_reader csv_start campos [] (csv_field f ++ 13 :: 10 :: rest)
  = rev (f :: campos) :: csv_reader csv_start [] [] rest.
Proof.
  intros H. destruct f as [|c f].
  - destruct H as [H | H]; [contradiction|].
    destruct campos; [contradiction|]. reflexivity.
  - rewrite csv_reader_field by discriminate.
    destruct (existsb csv_special (c :: f));
      cbn [csv_reader]; cbn [Z.eqb Pos.eqb]; rewrite rev_involutive; reflexivity.
Qed.

Lemma csv_reader_join (fs : list pystr) : forall campos rest,
  fs <> [] -> (campos <> [] \/ fs <> [[]]) ->
  csv_reader csv_start campos []
    (csv_join (map csv_field fs) ++ 13 :: 10 :: rest)
  = (rev campos ++ fs) :: csv_reader csv_start [] [] rest.
Proof.
  induction fs as [|f fs IH]; intros campos rest N H; [contradiction|].
  destruct fs as [|f2 fs].
  - cbn [map csv_join]. rewrite csv_reader_field_crlf.
    + cbn [rev]. reflexivity.
    + destruct H as [H | H]; [right; exact H|].
      left. intros ->. apply H. reflexivity.
  - change (csv_join (map csv_field (f :: f2 :: fs)))
      with (csv_field f ++ [44] ++ csv_join (map csv_field (f2 :: fs))).
    rewrite <- !app_assoc. cbn [app].
    rewrite csv_reader_field_comma.
    rewrite IH by (try discriminate; left; discriminate).
    cbn [rev]. rewrite <- app_assoc. reflexivity.
Qed.

Lemma csv_join_nil (fs : list pystr) :
  csv_join (map csv_field fs) = [] -> fs = [] \/ fs = [[]].
Proof.
  destruct fs as [|f [|f2 fs]].
  - auto.
  - cbn [map csv_join]. unfold csv_field.
    destruct (existsb csv_special f); [discriminate|]. intros ->. auto.
  - change (csv_join (map csv_field (f :: f2 :: fs)))
      with (csv_field f ++ [44] ++ csv_join (map csv_field (f2 :: fs))).
    intros H. apply app_eq_nil in H. destruct H as [_ H]. discriminate H.
Qed.

Lemma csv_reader_writerow (fs : list pystr) (rest : pystr) :
  csv_reader csv_start [] [] (csv_writerow fs ++ rest)
  = fs :: csv_reader csv_start [] [] rest.
Proof.
  unfold csv_writerow.
  destruct fs as [|f fs]; [reflexivity|].
  destruct (csv_join (map csv_field (f :: fs))) as [|c t] eqn:J.
  - apply csv_join_nil in J. destruct J as [J | J]; [discriminate|].
    injection J as -> ->. reflexivity.
  - rewrite <- J. rewrite <- app_assoc. cbn [app].
    rewrite csv_reader_join.
    + reflexivity.
    + discriminate.
    + right. intros E. rewrite E in J. discriminate J.
Qed.

Lemma csv_reader_rows (rows : list (list pystr)) :
  csv_reader csv_start [] [] (List.concat (map csv_writerow rows)) = rows.
Proof.
  induction rows as [|fs rows IH]; [reflexivity|].
  cbn [map List.concat]. rewrite csv_reader_writerow, IH. reflexivity.
Qed.

(** X14: the file written by the fallback export loses nothing: reading it
    back gives the rows that were written, whatever commas, double quotes or
    line breaks the fields hold; so two lists of rows with the same file are
    the same list, and the file exported from a store reads back as the
    header followed by one row per record of the listing query, with the
    compact date, the subject, the year, the time slot and the teacher. *)
Theorem csv_export_is_lossless :
  (forall rows,
     csv_reader csv_start [] [] (List.concat (map csv_writerow rows)) = rows)
  /\ (forall rows rows',
        List.concat (map csv_writerow rows)
        = List.concat (map csv_writerow rows') ->
        rows = rows')
  /\ (forall fecha_exportacion db,
        exists contents rows,
          exportar_pdf false fecha_exportacion db
          = Ok (send_csv contents (py "cronograma_examenes.csv")
                  (py "text/csv"), db)
          /\ csv_reader csv_start [] [] contents
             = [py "Fecha"; py "Espacio Curricular"; py "Año"; py "Horario";
                py "Docente"] :: rows
          /\ Forall2 (fun r row =>
                        exists c, formatear_fecha_compacta (fecha r) = Ok c
                                  /\ row = [c; espacio_curricular r; anio r;
                                            horario r; docente r])
                     (sql_select_all db) rows).
Proof.
  split; [exact csv_reader_rows|]. split.
  - intros rows rows' H.
    rewrite <- (csv_reader_rows rows), <- (csv_reader_rows rows'), H.
    reflexivity.
  - intros t db.
    destruct (exportar_pdf_rows t db) as (rows & F & _ & Hc).
    eexists _, rows. split; [exact Hc|].
    split; [apply (csv_reader_rows (csv_header :: rows)) | exact F].
Qed.

(** The reader on the file of one record whose teacher holds a comma. *)
Lemma csv_reader_example :
  csv_reader csv_start [] []
    (py "Fecha,Espacio Curricular,Año,Horario,Docente" ++ [13; 10]
     ++ py "VIE 12/09/2025,Matemática,1° año,09:00 - 11:00,"
     ++ [34] ++ py "DIAZ, PAMELA" ++ [34] ++ [13; 10])
  = [[py "Fecha"; py "Espacio Curricular"; py "Año"; py "Horario";
      py "Docente"];
     [py "VIE 12/09/2025"; py "Matemática"; py "1° año"; py "09:00 - 11:00";
      py "DIAZ, PAMELA"]].
Proof. vm_compute. reflexivity. Qed.
